(** * MistralMeter dashboard: a shallow embedding of the client code

    The repository's sources are the Vue/TypeScript dashboard of the
    evaluation platform.  Each module below embeds one source unit:

    - [JsNumber]        JavaScript numbers (IEEE 754 binary64) and the few
                        built-ins the sources call on them;
    - [JsString]        [trim], [split], [startsWith], [slice];
    - [Json]            values produced by [JSON.parse] / [response.json()];
    - [Api]             the interfaces of [useApi.ts];
    - [CostCalculator]  the cost estimate component;
    - [ComparisonBar], [ComparePage]   the comparison page;
    - [ComparisonEngine] the winner rule the page relies on;
    - [UseLocalStorage] the evaluation history;
    - [EvaluatePage]    the single evaluation page;
    - [VarianceChart]   the variance badge;
    - [UseApi]          [apiFetch] and [streamEvaluate];
    - [Samples]         concrete inputs.

    The modules named [...Facts] that follow state and prove what the
    interface description claims of these units.

    Numbers are Rocq's primitive floats, which are binary64 exactly as
    JavaScript's, so arithmetic evaluates to the very bits a browser
    computes.  An asynchronous call is represented by the way it settles,
    and what a handler does to the outside world by the list of events it
    emits, in order.  A handler that awaits a request is cut at the
    [await] into [dispatch] and [complete], since the page can change in
    between. *)

From Stdlib Require Import ZArith Floats Lia Ascii String.
From stdpp Require Import base option list gmap strings pretty.

Set Warnings "-inexact-float,-register-all".

(** ** JavaScript numbers *)

Module JsNumber.

Definition nan : float := (0 / 0)%float.

(** [Number.isNaN]: NaN is the only number different from itself. *)
Definition isNaN (x : float) : bool := negb (x =? x)%float.

(** ToBoolean on a number: [0], [-0] and [NaN] are falsy. *)
Definition truthy (x : float) : bool := negb ((x =? 0)%float || isNaN x).

(** The number an integer (a [length], a counter) denotes; integers of
    more than 53 bits are rounded to the nearest number. *)
Definition of_Z (z : Z) : float :=
  SF2Prim (binary_normalize prec emax z 0 false).

(** [Math.ceil].  A finite binary64 is [±m·2^e]; with [e >= 0] it is an
    integer already.  NaN, the infinities and the zeros are fixed points.
    A negative argument above [-1] gives [-0]. *)
Definition ceil (x : float) : float :=
  match Prim2SF x with
  | S754_finite s m e =>
      if (0 <=? e)%Z then x
      else
        let d := (2 ^ (- e))%Z in
        let q := (Z.pos m / d)%Z in
        let r := (Z.pos m mod d)%Z in
        if s then (if (q =? 0)%Z then (- 0)%float else of_Z (- q))
        else of_Z (if (r =? 0)%Z then q else q + 1)
  | _ => x
  end.

(** [a > b] as JavaScript evaluates it: false as soon as one side is NaN. *)
Definition gt (a b : float) : bool := (b <? a)%float.
Definition lt (a b : float) : bool := (a <? b)%float.

End JsNumber.

(** ** JavaScript strings

    A [string] is read as a sequence of UTF-16 code units below 256, which
    covers every literal of the sources. *)

Module JsString.

(** The code units below 256 that [\s] and [trim] treat as white space:
    TAB, LF, VT, FF, CR, SPACE and NO-BREAK SPACE. *)
Definition is_space (c : ascii) : bool :=
  let n := nat_of_ascii c in
  (Nat.leb 9 n && Nat.leb n 13) || Nat.eqb n 32 || Nat.eqb n 160.

Fixpoint trimStart (s : string) : string :=
  match s with
  | String c s' => if is_space c then trimStart s' else s
  | EmptyString => EmptyString
  end.

Definition trimEnd (s : string) : string :=
  String.rev (trimStart (String.rev s)).

Definition trim (s : string) : string := trimEnd (trimStart s).

(** [s.split(/\s+/)]: the pieces between maximal runs of white space.  A
    leading or trailing run leaves an empty piece, and the empty string
    splits into one empty piece.  [cur] is the piece being read, [in_run]
    tells that the previous code unit was white space. *)
Fixpoint split_spaces_from (in_run : bool) (cur : string) (s : string)
  : list string :=
  match s with
  | EmptyString => [cur]
  | String c s' =>
      if is_space c then
        if in_run then split_spaces_from true cur s'
        else cur :: split_spaces_from true EmptyString s'
      else split_spaces_from false (cur +:+ String c EmptyString) s'
  end.

Definition split_spaces (s : string) : list string :=
  split_spaces_from false EmptyString s.

(** [s.split(sep)] for a separator of one code unit. *)
Fixpoint split_char_from (sep : ascii) (cur : string) (s : string)
  : list string :=
  match s with
  | EmptyString => [cur]
  | String c s' =>
      if Ascii.eqb c sep then cur :: split_char_from sep EmptyString s'
      else split_char_from sep (cur +:+ String c EmptyString) s'
  end.

Definition split_char (sep : ascii) (s : string) : list string :=
  split_char_from sep EmptyString s.

Definition newline : ascii := ascii_of_nat 10.

Definition startsWith (s p : string) : bool := String.prefix p s.

(** [s.slice(n)] for [0 <= n]: the string without its first [n] units. *)
Definition slice (n : nat) (s : string) : string :=
  String.substring n (String.length s - n) s.

(** The decimal digits of a status code, as a template literal prints it. *)
Definition of_nat (n : nat) : string := pretty n.

End JsString.

(** ** JSON values *)

Module Json.

Inductive value : Type :=
| Null
| Bool (b : bool)
| Number (x : float)
| Str (s : string)
| Array (items : list value)
| Object (fields : list (string * value)).

(** What a property read or an absent field evaluates to. *)
Inductive slot : Type :=
| Undefined
| Defined (v : value).

Fixpoint assoc (k : string) (fields : list (string * value)) : slot :=
  match fields with
  | [] => Undefined
  | (k', v) :: rest => if String.eqb k k' then Defined v else assoc k rest
  end.

(** [v.k] for a key [k] that no prototype defines (such as [token] or
    [detail]): an object answers with its field, [null] throws a
    TypeError ([None]), every other value answers [undefined]. *)
Definition get (v : value) (k : string) : option slot :=
  match v with
  | Null => None
  | Object fields => Some (assoc k fields)
  | _ => Some Undefined
  end.

(** ToBoolean. *)
Definition truthy (v : value) : bool :=
  match v with
  | Null => false
  | Bool b => b
  | Number x => JsNumber.truthy x
  | Str s => negb (String.eqb s "")
  | Array _ | Object _ => true
  end.

Definition slot_truthy (s : slot) : bool :=
  match s with
  | Undefined => false
  | Defined v => truthy v
  end.

(** A member declared as an optional number ([score?: number]): absent,
    a number, or [null], which is what JSON text holds in the place of a
    number it cannot write. *)
Inductive optional_number : Type :=
| Absent
| IsNull
| Num (x : float).

(** ToBoolean of such a member. *)
Definition optional_truthy (m : optional_number) : bool :=
  match m with
  | Num x => JsNumber.truthy x
  | Absent | IsNull => false
  end.

End Json.

(** ** The data model of [useApi.ts] *)

Module Api.

Record EvalPrompt : Type := {
  prompt_text : string;                      (* [prompt] *)
  expected_style : option string;
  reference_answer : option string;
  category : option string
}.

Record TokenMetrics : Type := {
  input_tokens : float;
  output_tokens : float;
  total_tokens : float
}.

Record LatencyMetrics : Type := {
  total_ms : float;
  time_to_first_token_ms : option float;
  tokens_per_second : option float
}.

Record QualityScore : Type := {
  score : float;
  feedback : string;
  criteria_scores : list (string * float);
  (* The interface declares no [overall_score]; [evaluate.vue] reads that
     member off the object as the backend sent it. *)
  overall_score : Json.optional_number
}.

Record EvalMetrics : Type := {
  tokens : TokenMetrics;
  latency : LatencyMetrics;
  quality : QualityScore
}.

Record EvalResult : Type := {
  prompt : string;
  model : string;
  response : string;
  metrics : EvalMetrics
}.

Record CompareResult : Type := {
  cmp_prompt : string;
  model_a : EvalResult;
  model_b : EvalResult;
  winner : option string;
  comparison_summary : string
}.

(** How an awaited promise settles. *)
Inductive settled (T : Type) : Type :=
| Resolved (v : T)
| Rejected (message : string).
Arguments Resolved {T} v.
Arguments Rejected {T} message.

End Api.

(** ** The cost estimate component ([CostCalculator])

    Props: [prompt], [model], [maxTokens] and [runs] (default [1]). *)

Module CostCalculator.

Record pricing : Type := Pricing {
  name : string;
  input : float;
  output : float
}.

(** Mistral pricing (approximate, per 1K tokens). *)
Definition modelPricing : gmap string pricing :=
  list_to_map [
    ("mistral-small-latest",  Pricing "Mistral Small" 0.002 0.006);
    ("mistral-medium-latest", Pricing "Mistral Medium" 0.0027 0.0081);
    ("mistral-large-latest",  Pricing "Mistral Large" 0.004 0.012);
    ("open-mistral-7b",       Pricing "Open Mistral 7B" 0.00025 0.00025);
    ("open-mixtral-8x7b",     Pricing "Open Mixtral 8x7B" 0.0007 0.0007);
    ("open-mixtral-8x22b",    Pricing "Open Mixtral 8x22B" 0.002 0.006)
  ].

(** [modelPricing] is an object literal, so [modelPricing[k]] also finds
    what [Object.prototype] defines.  These are its property names; each
    holds a function, but [__proto__], which holds the prototype object. *)
Definition Object_prototype_names : list string := [
  "constructor"; "hasOwnProperty"; "isPrototypeOf"; "propertyIsEnumerable";
  "toLocaleString"; "toString"; "valueOf"; "__proto__";
  "__defineGetter__"; "__defineSetter__"; "__lookupGetter__";
  "__lookupSetter__"
].

(** The outcome of [modelPricing[model]]. *)
Inductive lookup : Type :=
| Missing                    (* undefined *)
| Entry (p : pricing)        (* an entry of the table *)
| Inherited (k : string).    (* a member of Object.prototype *)

Definition modelPricing_get (model : string) : lookup :=
  match modelPricing !! model with
  | Some p => Entry p
  | None =>
      if bool_decide (model ∈ Object_prototype_names) then Inherited model
      else Missing
  end.

(** The [name] property of an inherited member: a built-in function is
    named after its key, save the constructor, which is [Object]; the
    prototype object has no [name]. *)
Definition inherited_name (k : string) : option string :=
  if String.eqb k "__proto__" then None
  else if String.eqb k "constructor" then Some "Object"
  else Some k.

(** Estimate input tokens (rough): [ceil(words * 1.3)], the words being
    the pieces of [prompt.trim().split(/\s+/)]. *)
Definition words (prompt : string) : nat :=
  length (JsString.split_spaces (JsString.trim prompt)).

Definition estimatedInputTokens (prompt : string) : float :=
  JsNumber.ceil (JsNumber.of_Z (Z.of_nat (words prompt)) * 1.3)%float.

(** [inputCost] and [outputCost], as functions of the model and of the
    token count each one prices. *)
Definition inputCost (model : string) (inputTokens : float) : float :=
  match modelPricing_get model with
  | Missing => 0%float
  | Entry pricing => ((inputTokens / 1000) * input pricing)%float
  | Inherited _ => JsNumber.nan
  end.

Definition outputCost (model : string) (maxTokens : float) : float :=
  match modelPricing_get model with
  | Missing => 0%float
  | Entry pricing => ((maxTokens / 1000) * output pricing)%float
  | Inherited _ => JsNumber.nan
  end.

Definition totalCost (model : string) (inputTokens maxTokens : float)
  : float :=
  (inputCost model inputTokens + outputCost model maxTokens)%float.

Record Props : Type := {
  prompt : string;
  model : string;
  maxTokens : float;
  runs : option float
}.

Definition runs_or_default (props : Props) : float :=
  default 1%float (runs props).

(** The computed total of the component. *)
Definition componentTotalCost (props : Props) : float :=
  totalCost (model props) (estimatedInputTokens (prompt props))
    (maxTokens props).

(** The pricing footer: [modelPricing[model]?.name || 'Unknown model'] and
    [modelPricing[model]?.input || 0] (likewise for [output]). *)
Definition or_unknown (s : option string) : string :=
  match s with
  | Some n => if String.eqb n "" then "Unknown model" else n
  | None => "Unknown model"
  end.

Definition pricingName (model : string) : string :=
  match modelPricing_get model with
  | Missing => "Unknown model"
  | Entry p => or_unknown (Some (name p))
  | Inherited k => or_unknown (inherited_name k)
  end.

Definition or_zero (x : float) : float :=
  if JsNumber.truthy x then x else 0%float.

Definition pricingInput (model : string) : float :=
  match modelPricing_get model with
  | Entry p => or_zero (input p)
  | _ => 0%float
  end.

Definition pricingOutput (model : string) : float :=
  match modelPricing_get model with
  | Entry p => or_zero (output p)
  | _ => 0%float
  end.

(** The yellow box is rendered when [totalCost * runs > 0.01]. *)
Definition highCostWarning (props : Props) : bool :=
  JsNumber.gt (componentTotalCost props * runs_or_default props)%float
    0.01%float.

(** The token counts the estimate is computed from: the rows "Input
    tokens" and "Output tokens" of the breakdown. *)
Definition costTokenCounts (props : Props) : float * float :=
  (estimatedInputTokens (prompt props), maxTokens props).

(** The estimate follows the gateway's accounting [t] of an evaluation
    when these counts are the ones [t] reports. *)
Definition follows_gateway (props : Props) (t : Api.TokenMetrics) : Prop :=
  costTokenCounts props = (Api.input_tokens t, Api.output_tokens t).

(** The request of the API documentation, with the page's default
    [maxTokens], and the token usage documented for its answer. *)
Definition documented_props : Props := {|
  prompt := "Explain transformers in simple terms";
  model := "mistral-small-latest";
  maxTokens := 1024;
  runs := None
|}.

Definition documented_tokens : Api.TokenMetrics := {|
  Api.input_tokens := 23;
  Api.output_tokens := 214;
  Api.total_tokens := 237
|}.

End CostCalculator.

(** ** One bar of the metrics comparison ([ComparisonBar]) *)

Module ComparisonBar.

Record Props : Type := {
  label : string;
  valueA : float;
  valueB : float;
  max : float;
  unit : string;
  higherBetter : option bool       (* [undefined] by default *)
}.

Definition isABetter (props : Props) : bool :=
  match higherBetter props with
  | None => false
  | Some true => JsNumber.gt (valueA props) (valueB props)
  | Some false => JsNumber.lt (valueA props) (valueB props)
  end.

Definition isBBetter (props : Props) : bool :=
  match higherBetter props with
  | None => false
  | Some true => JsNumber.gt (valueB props) (valueA props)
  | Some false => JsNumber.lt (valueB props) (valueA props)
  end.

End ComparisonBar.

(** ** The comparison page ([compare.vue]) *)

Module ComparePage.
Import Api.

Record State : Type := {
  prompt : string;
  modelA : string;
  modelB : string;
  temperature : float;
  maxTokens : float;
  loading : bool;
  result : option CompareResult
}.

Definition initial : State := {|
  prompt := "";
  modelA := "mistral-small-latest";
  modelB := "mistral-large-latest";
  temperature := 0.7;
  maxTokens := 1024;
  loading := false;
  result := None
|}.

(** What the page does to the outside world. *)
Inductive Event : Type :=
| ApiCompare (p : EvalPrompt) (model_a model_b : string)
    (temperature max_tokens : float)
| ConsoleError (message : string).

(** [!prompt.value.trim()] *)
Definition blank (s : string) : bool := String.eqb (JsString.trim s) "".

Definition with_loading (b : bool) (st : State) : State := {|
  prompt := prompt st; modelA := modelA st; modelB := modelB st;
  temperature := temperature st; maxTokens := maxTokens st;
  loading := b; result := result st
|}.

Definition with_result (r : option CompareResult) (st : State) : State := {|
  prompt := prompt st; modelA := modelA st; modelB := modelB st;
  temperature := temperature st; maxTokens := maxTokens st;
  loading := loading st; result := r
|}.

(** [runComparison] up to its [await]: the guard and the two assignments
    that precede the request.  [None]: the guard returns. *)
Definition dispatch (st : State) : option State :=
  if blank (prompt st) || String.eqb (modelA st) (modelB st) then None
  else Some (with_result None (with_loading true st)).

(** [runComparison] from the moment the request settles.  [live] is the
    page as it stands at that moment: the prompt, the two selects and the
    sliders stay editable while the request is pending, and the handler
    assigns [result] and [loading] only. *)
Definition complete (outcome : settled CompareResult) (live : State)
  : State * list Event :=
  match outcome with
  | Resolved r => (with_loading false (with_result (Some r) live), [])
  | Rejected e => (with_loading false live, [ConsoleError e])
  end.

Section RunComparison.

(** The backend behind [compare]: how the request settles. *)
Variable compare :
  EvalPrompt → string → string → float → float → settled CompareResult.

(** One run of the handler during which nothing else touches the page:
    the request is built from the form at the click, and the page that
    [complete] meets is the one [dispatch] left. *)
Definition runComparison (st : State) : State * list Event :=
  match dispatch st with
  | None => (st, [])
  | Some pending =>
      let p := {| prompt_text := prompt st; expected_style := None;
                  reference_answer := None; category := None |} in
      let call :=
        ApiCompare p (modelA st) (modelB st) (temperature st) (maxTokens st) in
      let '(st', log) :=
        complete
          (compare p (modelA st) (modelB st) (temperature st) (maxTokens st))
          pending in
      (st', call :: log)
  end.

End RunComparison.

(** The template: the button's [:disabled], the yellow notice under it,
    and the heading of the winner banner. *)
Definition compareDisabled (st : State) : bool :=
  blank (prompt st) || loading st || String.eqb (modelA st) (modelB st).

Definition sameModelNotice (st : State) : option string :=
  if String.eqb (modelA st) (modelB st)
  then Some "Please select different models to compare"
  else None.

Definition winnerHeading (r : CompareResult) : string :=
  match winner r with
  | Some w => if String.eqb w "" then "Tie" else "Winner: " +:+ w
  | None => "Tie"
  end.

(** The quality row of the metrics comparison. *)
Definition qualityBar (r : CompareResult) : ComparisonBar.Props := {|
  ComparisonBar.label := "Quality Score";
  ComparisonBar.valueA := score (quality (metrics (model_a r)));
  ComparisonBar.valueB := score (quality (metrics (model_b r)));
  ComparisonBar.max := 10;
  ComparisonBar.unit := "";
  ComparisonBar.higherBetter := Some true
|}.

End ComparePage.

(** ** The winner rule of the comparison engine *)

Module ComparisonEngine.

Record Verdict : Type := {
  winner : option string;
  summary_states_tie : bool
}.

(** Modelled from the spec: the comparison engine's winner rule; the engine
    is backend code and only its client, the comparison page, is among the
    sources.  The model with the strictly higher quality score wins; an
    exact tie produces no winner and a summary that states the tie. *)
Definition verdict (model_a model_b : string) (score_a score_b : float)
  : Verdict :=
  if JsNumber.gt score_a score_b then
    {| winner := Some model_a; summary_states_tie := false |}
  else if JsNumber.gt score_b score_a then
    {| winner := Some model_b; summary_states_tie := false |}
  else {| winner := None; summary_states_tie := true |}.

End ComparisonEngine.

(** ** The evaluation history ([useLocalStorage]) *)

Module UseLocalStorage.

Record EvaluationHistory : Type := {
  id : string;
  prompt : string;
  model : string;
  timestamp : string;
  score : Json.optional_number;
  temperature : Json.optional_number
}.

(** [Omit<EvaluationHistory, 'id' | 'timestamp'>] *)
Record NewEntry : Type := {
  new_prompt : string;
  new_model : string;
  new_score : Json.optional_number;
  new_temperature : Json.optional_number
}.

Definition MAX_HISTORY : nat := 50.

(** The [history] ref together with what [localStorage] holds under
    [HISTORY_KEY]; the stored text is [JSON.stringify] of a list, and is
    represented by that list. *)
Record Store : Type := {
  history : list EvaluationHistory;
  stored : option (list EvaluationHistory)
}.

(** The browser around the composable: is there a [window], and does
    [localStorage.setItem] go through (it throws when the quota is
    exceeded, which [saveHistory] catches and logs). *)
Record Browser : Type := {
  has_window : bool;
  setItem_succeeds : bool
}.

Definition saveHistory (env : Browser) (st : Store) : Store :=
  if negb (has_window env) then st
  else if setItem_succeeds env
       then {| history := history st; stored := Some (history st) |}
       else st.

(** [{ ...item, id, timestamp }]; [fresh_id] stands for
    [Math.random().toString(36).substring(7)] and [now] for
    [new Date().toISOString()]. *)
Definition newItem (item : NewEntry) (fresh_id now : string)
  : EvaluationHistory := {|
  id := fresh_id;
  prompt := new_prompt item;
  model := new_model item;
  timestamp := now;
  score := new_score item;
  temperature := new_temperature item
|}.

Definition addToHistory (env : Browser) (item : NewEntry)
  (fresh_id now : string) (st : Store) : Store :=
  (* history.value.unshift(newItem) *)
  let h1 := newItem item fresh_id now :: history st in
  (* keep only last MAX_HISTORY items *)
  let h2 := if Nat.ltb MAX_HISTORY (length h1) then take MAX_HISTORY h1
            else h1 in
  saveHistory env {| history := h2; stored := stored st |}.

Definition clearHistory (env : Browser) (st : Store) : Store :=
  saveHistory env {| history := []; stored := stored st |}.

Definition removeFromHistory (env : Browser) (target : string) (st : Store)
  : Store :=
  saveHistory env
    {| history :=
         filter (λ item, negb (String.eqb (id item) target)) (history st);
       stored := stored st |}.

End UseLocalStorage.

(** ** The evaluation page ([evaluate.vue]) *)

Module EvaluatePage.
Import Api.

Record EvalRequest : Type := {
  req_prompt : EvalPrompt;
  req_model : string;
  judge_model : string;
  req_temperature : float;
  max_tokens : float;
  req_runs : float
}.

Record State : Type := {
  prompt : string;
  selectedModel : string;
  judgeModel : string;
  selectedStyle : string;
  temperature : float;
  maxTokens : float;
  referenceAnswer : string;
  enableVariance : bool;
  runs : float;
  currentRun : float;
  loading : bool;
  result : option EvalResult;
  error : option string
}.

Definition initial : State := {|
  prompt := "";
  selectedModel := "mistral-small-latest";
  judgeModel := "mistral-large-latest";
  selectedStyle := "educational";
  temperature := 0.7;
  maxTokens := 1024;
  referenceAnswer := "";
  enableVariance := false;
  runs := 5;
  currentRun := 0;
  loading := false;
  result := None;
  error := None
|}.

Inductive ToastType : Type := success | error_toast | warning | info.

Inductive Event : Type :=
| ApiEvaluate (request : EvalRequest)
| AddToHistory (item : UseLocalStorage.NewEntry)
| Toast (type : ToastType) (message : string)
| ConsoleError (message : string).

Definition blank (s : string) : bool := String.eqb (JsString.trim s) "".

(** The refs [runEvaluation] assigns. *)
Definition settle (run : float) (busy : bool) (r : option EvalResult)
  (e : option string) (st : State) : State := {|
  prompt := prompt st; selectedModel := selectedModel st;
  judgeModel := judgeModel st; selectedStyle := selectedStyle st;
  temperature := temperature st; maxTokens := maxTokens st;
  referenceAnswer := referenceAnswer st;
  enableVariance := enableVariance st; runs := runs st;
  currentRun := run; loading := busy; result := r; error := e
|}.

Definition request_of (st : State) : EvalRequest := {|
  req_prompt := {|
    prompt_text := prompt st;
    expected_style := Some (selectedStyle st);
    (* referenceAnswer.value || undefined *)
    reference_answer :=
      if String.eqb (referenceAnswer st) "" then None
      else Some (referenceAnswer st);
    category := None |};
  req_model := selectedModel st;
  judge_model := judgeModel st;
  req_temperature := temperature st;
  max_tokens := maxTokens st;
  req_runs := if enableVariance st then runs st else 1%float
|}.

(** [runEvaluation] up to its [await]: the guard and the four assignments
    that precede the request.  [None]: the guard returns. *)
Definition dispatch (st : State) : option State :=
  if blank (prompt st) then None else Some (settle 1 true None None st).

(** [runEvaluation] from the moment the request settles.  [live] is the
    page as it stands at that moment: the form stays editable while the
    request is pending, and the entry handed to [addToHistory] is read
    from the refs then, with the score member of the answer as it was
    received. *)
Definition complete (outcome : settled EvalResult) (live : State)
  : State * list Event :=
  match outcome with
  | Resolved r =>
      (settle (currentRun live) false (Some r) (error live) live,
       [ AddToHistory {|
           UseLocalStorage.new_prompt := prompt live;
           UseLocalStorage.new_model := selectedModel live;
           UseLocalStorage.new_score := overall_score (quality (metrics r));
           UseLocalStorage.new_temperature := Json.Num (temperature live) |};
         Toast success "Evaluation completed successfully!" ])
  | Rejected e =>
      (settle (currentRun live) false (result live) (Some e) live,
       [ Toast error_toast ("Evaluation failed: " +:+ e);
         ConsoleError e ])
  end.

Section RunEvaluation.

(** The backend behind [evaluate]. *)
Variable evaluate : EvalRequest → settled EvalResult.

(** One run of the handler during which nothing else touches the page:
    the page that [complete] meets is the one [dispatch] left. *)
Definition runEvaluation (st : State) : State * list Event :=
  match dispatch st with
  | None => (st, [])
  | Some pending =>
      let req := request_of st in
      let '(st', log) := complete (evaluate req) pending in
      (st', ApiEvaluate req :: log)
  end.

End RunEvaluation.

(** The template: the submit button's [:disabled], and the caption under
    the judge selector. *)
Definition submitDisabled (st : State) : bool :=
  blank (prompt st) || loading st.

Definition judgeCaption : string := "Different from evaluated model".

(** The "Token Usage" card and the "Tokens" metric of the results: the
    input, output and total counts of the displayed result. *)
Definition tokenUsageShown (st : State) : option (float * float * float) :=
  r ← result st;
  Some (input_tokens (tokens (metrics r)),
        output_tokens (tokens (metrics r)),
        total_tokens (tokens (metrics r))).

End EvaluatePage.

(** ** The variance badge ([VarianceChart]) *)

Module VarianceChart.

Record Stats : Type := {
  mean : float;
  median : float;
  std_dev : float;
  min : float;
  max : float;
  p25 : float;
  p50 : float;
  p75 : float;
  p95 : float;
  coefficient_of_variation : option float
}.

Inductive Consistency : Type := excellent | good | moderate | poor.

(** Does [a || b] evaluate [b]?  Here [b] is [std_dev / mean]. *)
Definition divides (stats : Stats) : bool :=
  match coefficient_of_variation stats with
  | Some c => negb (JsNumber.truthy c)
  | None => true
  end.

(** [stats.coefficient_of_variation || (stats.std_dev / stats.mean)] *)
Definition cv (stats : Stats) : float :=
  match coefficient_of_variation stats with
  | Some c =>
      if JsNumber.truthy c then c else (std_dev stats / mean stats)%float
  | None => (std_dev stats / mean stats)%float
  end.

Definition varianceQuality (stats : Stats) : Consistency :=
  let cv := cv stats in
  if JsNumber.lt cv 0.05 then excellent
  else if JsNumber.lt cv 0.1 then good
  else if JsNumber.lt cv 0.2 then moderate
  else poor.

End VarianceChart.

(** ** The API client ([useApi]) *)

Module UseApi.

(** What [fetch] hands back: [body] is what [response.json()] resolves
    to, [None] when that promise rejects (the body is not JSON). *)
Record Response : Type := {
  ok : bool;
  status : nat;
  body : option Json.value
}.

(** What a rejected call carries.  [Error message] is the object that
    [new Error(...)] makes: it holds a message, which is a string, and
    nothing else. *)
Inductive Exception : Type :=
| Error (message : string)
| TypeError
| SyntaxError.

Inductive Outcome : Type :=
| Returns (data : Json.value)
| Throws (e : Exception).

(** Modelled from the spec: the four failure kinds of the gateway
    interface, which the sources do not declare. *)
Inductive ErrorKind : Type :=
| rate_limited | invalid_model | timeout | malformed_response.

Section ApiFetch.

(** [Number.prototype.toString], a built-in the sources rely on. *)
Variable Number_toString : float → string.

(** [String(v)], which [new Error(v)] applies to its argument; [None]
    when the conversion throws a TypeError.  A string is itself; an array
    is the string forms of its elements joined by commas, a [null]
    element giving the empty string; an object is "[object Object]",
    unless it has a member named [toString], which hides the inherited
    method and, being data, cannot be called. *)
Fixpoint ToString (v : Json.value) : option string :=
  match v with
  | Json.Null => Some "null"
  | Json.Bool b => Some (if b then "true" else "false")
  | Json.Number x => Some (Number_toString x)
  | Json.Str s => Some s
  | Json.Array items =>
      (fix join (l : list Json.value) : option string :=
         match l with
         | [] => Some ""
         | x :: rest =>
             match
               match x with
               | Json.Null => Some ""
               | _ => ToString x
               end
             with
             | None => None
             | Some piece =>
                 match rest with
                 | [] => Some piece
                 | _ :: _ =>
                     match join rest with
                     | None => None
                     | Some pieces => Some (piece +:+ "," +:+ pieces)
                     end
                 end
             end
         end) items
  | Json.Object fields =>
      match Json.assoc "toString" fields with
      | Json.Undefined => Some "[object Object]"
      | Json.Defined _ => None
      end
  end.

(** The part of [apiFetch] that follows the [await fetch(...)]. *)
Definition apiFetch (response : Response) : Outcome :=
  if negb (ok response) then
    (* await response.json().catch(() => ({ detail: 'Unknown error' })) *)
    let error :=
      default (Json.Object [("detail", Json.Str "Unknown error")])
        (body response) in
    match Json.get error "detail" with
    | None => Throws TypeError
    | Some detail =>
        (* new Error(error.detail || `HTTP ${response.status}`) *)
        match detail with
        | Json.Defined v =>
            if Json.truthy v then
              match ToString v with
              | Some message => Throws (Error message)
              | None => Throws TypeError
              end
            else Throws (Error ("HTTP " +:+ JsString.of_nat (status response)))
        | Json.Undefined =>
            Throws (Error ("HTTP " +:+ JsString.of_nat (status response)))
        end
    end
  else
    match body response with
    | Some data => Returns data
    | None => Throws SyntaxError
    end.

(** Modelled from the spec: the kinds stay distinguishable.  The
    interface does not say how a failing response tells its kind, so
    that is left open as [reported]; the kind survives the client when it
    can be read off what [apiFetch] throws. *)
Definition kind_survives (reported : Response → ErrorKind) : Prop :=
  ∃ classify : Outcome → ErrorKind,
    ∀ r : Response, ok r = false → classify (apiFetch r) = reported r.

End ApiFetch.

(** *** [streamEvaluate] *)

Section StreamEvaluate.

(** [JSON.parse]: [None] when it throws a SyntaxError. *)
Variable JSON_parse : string → option Json.value.

(** What the body of the [for] loop does with one line. *)
Inductive LineStep : Type :=
| Skip
| Yield (token : Json.value)
| Return.

Definition handle_line (line : string) : LineStep :=
  if JsString.startsWith line "data: " then
    let data := JsString.slice 6 line in
    if String.eqb data "[DONE]" then Return
    else
      (* try { ... } catch {} *)
      match JSON_parse data with
      | None => Skip
      | Some parsed =>
          match Json.get parsed "token" with
          | None => Skip
          | Some Json.Undefined => Skip
          | Some (Json.Defined token) =>
              if Json.truthy token then Yield token else Skip
          end
      end
  else Skip.

(** [for (const line of lines)]: the tokens yielded, and whether the
    generator returned inside the loop. *)
Fixpoint handle_lines (lines : list string) : list Json.value * bool :=
  match lines with
  | [] => ([], false)
  | line :: rest =>
      match handle_line line with
      | Return => ([], true)
      | Skip => handle_lines rest
      | Yield token =>
          let '(tokens, returned) := handle_lines rest in
          (token :: tokens, returned)
      end
  end.

(** [while (true)] over the reads of the body; the list holds the decoded
    text of each read, and its end is the read that reports [done]. *)
Fixpoint read_loop (reads : list string) : list Json.value :=
  match reads with
  | [] => []
  | text :: later =>
      let '(tokens, returned) :=
        handle_lines (JsString.split_char JsString.newline text) in
      if returned then tokens else tokens ++ read_loop later
  end.

(** The values the generator yields; [None] is a response without body
    ([if (!reader) return]). *)
Definition streamEvaluate (response_body : option (list string))
  : list Json.value :=
  match response_body with
  | None => []
  | Some reads => read_loop reads
  end.

(** The end-of-stream marker, as a line. *)
Definition is_marker (line : string) : bool :=
  JsString.startsWith line "data: "
  && String.eqb (JsString.slice 6 line) "[DONE]".

(** The token of a well-formed data line: the line starts with the data
    prefix, its payload parses, the parsed value can be asked for [token],
    and that member is truthy. *)
Definition token_of (line : string) : option Json.value :=
  if JsString.startsWith line "data: " then
    parsed ← JSON_parse (JsString.slice 6 line);
    member ← Json.get parsed "token";
    match member with
    | Json.Defined token => if Json.truthy token then Some token else None
    | Json.Undefined => None
    end
  else None.

Fixpoint before_marker (lines : list string) : list string :=
  match lines with
  | [] => []
  | line :: rest => if is_marker line then [] else line :: before_marker rest
  end.

(** The lines as the loop meets them: every read is cut into lines on
    its own, so that a line of the body that two reads share shows up as
    two pieces. *)
Definition arriving_lines (reads : list string) : list string :=
  concat (map (JsString.split_char JsString.newline) reads).

Definition tokens_until_marker (reads : list string) : list Json.value :=
  omap token_of (before_marker (arriving_lines reads)).

(** The stream as the interface describes it, which the generator is
    compared with: the body is one text, however it is cut into reads;
    its lines are the data chunks; the sequence ends at the first
    end-of-stream marker, and each well-formed data line before it gives
    its token. *)
Definition stream_text (reads : list string) : string :=
  foldr String.append EmptyString reads.

Definition stream_lines (reads : list string) : list string :=
  JsString.split_char JsString.newline (stream_text reads).

Definition tokens_of_stream (reads : list string) : list Json.value :=
  omap token_of (before_marker (stream_lines reads)).

End StreamEvaluate.

End UseApi.

(** ** Sample inputs

    Concrete requests, answers and streams, used to run the definitions
    above. *)

Module Samples.
Import Api.

(** An answer of [model] that the judge scored [q]; the other figures are
    those of the API documentation. *)
Definition answer (asked : string) (model : string) (q : float)
  : EvalResult := {|
  prompt := asked;
  model := model;
  response := "Transformers are a type of neural network architecture...";
  metrics := {|
    tokens := CostCalculator.documented_tokens;
    latency := {| total_ms := 812.5;
                  time_to_first_token_ms := Some 156.3%float;
                  tokens_per_second := Some 263.5%float |};
    quality := {| score := q;
                  feedback := "Clear, well-structured, accurate explanation";
                  criteria_scores := [("clarity", 9.0%float);
                                      ("accuracy", 8.5%float)];
                  overall_score := Json.Absent |} |}
|}.

(** A backend for [evaluate] that always answers. *)
Definition evaluate_backend (req : EvaluatePage.EvalRequest)
  : settled EvalResult :=
  Resolved (answer (prompt_text (EvaluatePage.req_prompt req))
              (EvaluatePage.req_model req) 8.6).

(** A backend for [compare] whose answers score [score_a] and [score_b],
    and whose winner follows the engine's rule. *)
Definition compare_backend (score_a score_b : float)
  (p : EvalPrompt) (a b : string) (temperature max_tokens : float)
  : settled CompareResult :=
  let v := ComparisonEngine.verdict a b score_a score_b in
  Resolved {|
    cmp_prompt := prompt_text p;
    model_a := answer (prompt_text p) a score_a;
    model_b := answer (prompt_text p) b score_b;
    winner := ComparisonEngine.winner v;
    comparison_summary :=
      if ComparisonEngine.summary_states_tie v
      then "Tie: both models scored equally"
      else "One model scored higher"
  |}.

(** The comparison form with one model selected on both sides. *)
Definition same_model_form : ComparePage.State := {|
  ComparePage.prompt := "Write a Python function for binary search";
  ComparePage.modelA := "mistral-large-latest";
  ComparePage.modelB := "mistral-large-latest";
  ComparePage.temperature := 0.7;
  ComparePage.maxTokens := 1024;
  ComparePage.loading := false;
  ComparePage.result := None
|}.

Definition two_model_form : ComparePage.State := {|
  ComparePage.prompt := "Write a Python function for binary search";
  ComparePage.modelA := "mistral-small-latest";
  ComparePage.modelB := "mistral-large-latest";
  ComparePage.temperature := 0.7;
  ComparePage.maxTokens := 1024;
  ComparePage.loading := false;
  ComparePage.result := None
|}.

(** The evaluation form after the operator picked, in the judge selector,
    the model that is being evaluated. *)
Definition self_judged_form : EvaluatePage.State := {|
  EvaluatePage.prompt := "Explain transformers in simple terms";
  EvaluatePage.selectedModel := "mistral-large-latest";
  EvaluatePage.judgeModel := "mistral-large-latest";
  EvaluatePage.selectedStyle := "educational";
  EvaluatePage.temperature := 0.7;
  EvaluatePage.maxTokens := 1024;
  EvaluatePage.referenceAnswer := "";
  EvaluatePage.enableVariance := false;
  EvaluatePage.runs := 5;
  EvaluatePage.currentRun := 0;
  EvaluatePage.loading := false;
  EvaluatePage.result := None;
  EvaluatePage.error := None
|}.

(** Statistics of runs that all scored [q], sent without a coefficient
    of variation. *)
Definition constant_scores (q : float) : VarianceChart.Stats := {|
  VarianceChart.mean := q;
  VarianceChart.median := q;
  VarianceChart.std_dev := 0;
  VarianceChart.min := q;
  VarianceChart.max := q;
  VarianceChart.p25 := q;
  VarianceChart.p50 := q;
  VarianceChart.p75 := q;
  VarianceChart.p95 := q;
  VarianceChart.coefficient_of_variation := None
|}.

(** Failing responses whose body is not JSON, as a proxy in front of the
    backend sends them. *)
Definition plain_failure (status : nat) : UseApi.Response := {|
  UseApi.ok := false;
  UseApi.status := status;
  UseApi.body := None
|}.

(** A failing response of the backend, which reports its reason in
    [detail]. *)
Definition detailed_failure (status : nat) (detail : string)
  : UseApi.Response := {|
  UseApi.ok := false;
  UseApi.status := status;
  UseApi.body := Some (Json.Object [("detail", Json.Str detail)])
|}.

Definition quote : string := String (ascii_of_nat 34) EmptyString.
Definition line_feed : string := String JsString.newline EmptyString.

(** The text of the object whose only member is [token], a string. *)
Definition token_open : string :=
  "{" +:+ quote +:+ "token" +:+ quote +:+ ": " +:+ quote.
Definition token_close : string := quote +:+ "}".
Definition token_json (text : string) : string :=
  token_open +:+ text +:+ token_close.

(** A fragment of [JSON.parse] that covers the samples: the literal
    [null], and the objects written by [token_json] for a text without
    quote or escape. *)
Definition parse_sample (data : string) : option Json.value :=
  if String.eqb data "null" then Some Json.Null
  else if String.prefix token_open data
          && String.prefix (String.rev token_close) (String.rev data)
  then
    let n := String.length token_open in
    let text :=
      String.substring n
        (String.length data - n - String.length token_close) data in
    Some (Json.Object [("token", Json.Str text)])
  else None.

(** One server-sent event. *)
Definition event (data : string) : string :=
  "data: " +:+ data +:+ line_feed +:+ line_feed.

(** Three reads of a stream: two tokens, then the end-of-stream marker
    followed by a token in the same read, then one more token. *)
Definition sample_reads : list string := [
  event (token_json "Hel") +:+ event (token_json "lo");
  event "[DONE]" +:+ event (token_json "late");
  event (token_json "later")
].

(** The body [event (token_json "Hello") +:+ event "[DONE]"], arriving in
    two reads, the first of which ends inside the token line. *)
Definition cut_token_reads : list string := [
  "data: " +:+ token_open +:+ "Hel";
  "lo" +:+ token_close +:+ line_feed +:+ line_feed +:+ event "[DONE]"
].

(** The body [event "[DONE]" +:+ event (token_json "late")], arriving in
    two reads, the first of which ends inside the marker line. *)
Definition cut_marker_reads : list string := [
  "data: [DO";
  "NE]" +:+ line_feed +:+ line_feed +:+ event (token_json "late")
].

(** A history that is full: fifty entries, the newest first. *)
Definition old_entry (n : nat) : UseLocalStorage.EvaluationHistory := {|
  UseLocalStorage.id := pretty n;
  UseLocalStorage.prompt := "prompt " +:+ pretty n;
  UseLocalStorage.model := "mistral-small-latest";
  UseLocalStorage.timestamp := "2025-01-15T00:00:00.000Z";
  UseLocalStorage.score := Json.Absent;
  UseLocalStorage.temperature := Json.Num 0.7
|}.

Definition full_store : UseLocalStorage.Store := {|
  UseLocalStorage.history := map old_entry (seq 0 50);
  UseLocalStorage.stored := Some (map old_entry (seq 0 50))
|}.

Definition a_browser : UseLocalStorage.Browser := {|
  UseLocalStorage.has_window := true;
  UseLocalStorage.setItem_succeeds := true
|}.

Definition new_entry : UseLocalStorage.NewEntry := {|
  UseLocalStorage.new_prompt := "Explain transformers in simple terms";
  UseLocalStorage.new_model := "mistral-small-latest";
  UseLocalStorage.new_score := Json.Absent;
  UseLocalStorage.new_temperature := Json.Num 0.7
|}.

End Samples.

(** ** Loading the history, and several users of the composable *)

Module HistoryPersistence.
Import UseLocalStorage.

(** What [JSON.parse] reads back of a number that [JSON.stringify] wrote:
    NaN and the infinities are written [null]; [-0] is written [0];
    every other number is written with digits that read back as that
    very number. *)
Definition JSON_number (x : float) : Json.optional_number :=
  match Prim2SF x with
  | S754_nan | S754_infinity _ => Json.IsNull
  | S754_zero _ => Json.Num 0
  | S754_finite _ _ _ => Json.Num x
  end.

(** An absent member is left out of the text, and [null] is written
    [null]. *)
Definition JSON_member (m : Json.optional_number) : Json.optional_number :=
  match m with
  | Json.Num x => JSON_number x
  | Json.Absent => Json.Absent
  | Json.IsNull => Json.IsNull
  end.

(** [JSON.parse(JSON.stringify(entry))]; the four strings come back as
    they were. *)
Definition JSON_entry (e : EvaluationHistory) : EvaluationHistory := {|
  id := id e;
  prompt := prompt e;
  model := model e;
  timestamp := timestamp e;
  score := JSON_member (score e);
  temperature := JSON_member (temperature e)
|}.

(** The numbers that JSON text carries as they are: the finite ones,
    [-0] apart. *)
Definition JSON_exact_number (x : float) : bool :=
  match Prim2SF x with
  | S754_finite _ _ _ => true
  | S754_zero negative => negb negative
  | S754_nan | S754_infinity _ => false
  end.

Definition JSON_exact_member (m : Json.optional_number) : bool :=
  match m with
  | Json.Num x => JSON_exact_number x
  | Json.Absent | Json.IsNull => true
  end.

Definition JSON_exact (e : EvaluationHistory) : bool :=
  JSON_exact_member (score e) && JSON_exact_member (temperature e).

(** [loadHistory]: without a window, or with nothing stored under the
    key, the ref keeps its value; otherwise it takes what [JSON.parse]
    reads in the stored text. *)
Definition loadHistory (env : Browser) (st : Store) : Store :=
  if negb (has_window env) then st
  else
    match stored st with
    | Some saved =>
        {| history := map JSON_entry saved; stored := stored st |}
    | None => st
    end.

(** One call of [useLocalStorage()]: a new [history] ref, empty, then
    [loadHistory()].  The storage holds nothing under the key, or a text
    that [saveHistory] wrote. *)
Definition instance (env : Browser)
  (storage : option (list EvaluationHistory)) : Store :=
  loadHistory env {| history := []; stored := storage |}.

(** The operations the composable hands out. *)
Inductive Op : Type :=
| Add (item : NewEntry) (fresh_id now : string)
| Remove (target : string)
| Clear.

Definition apply (env : Browser) (st : Store) (op : Op) : Store :=
  match op with
  | Add item fresh_id now => addToHistory env item fresh_id now st
  | Remove target => removeFromHistory env target st
  | Clear => clearHistory env st
  end.

Definition run (env : Browser) (ops : list Op) (st : Store) : Store :=
  foldl (apply env) st ops.

(** Every call of [useLocalStorage()] has its own [history] ref, and all
    of them write the same key: [reader] as it stands once [writer] has
    saved. *)
Definition after_write_of (writer reader : Store) : Store :=
  {| history := history reader; stored := stored writer |}.

End HistoryPersistence.

(** ** Favourite prompts ([useLocalStorage]) *)

Module Favorites.

Record Store : Type := {
  favorites : list string;
  stored : option (list string)
}.

Definition saveFavorites (env : UseLocalStorage.Browser) (st : Store)
  : Store :=
  if negb (UseLocalStorage.has_window env) then st
  else if UseLocalStorage.setItem_succeeds env
       then {| favorites := favorites st; stored := Some (favorites st) |}
       else st.

Definition loadFavorites (env : UseLocalStorage.Browser) (st : Store)
  : Store :=
  if negb (UseLocalStorage.has_window env) then st
  else
    match stored st with
    | Some saved => {| favorites := saved; stored := stored st |}
    | None => st
    end.

(** [favorites.indexOf(prompt)]; [None] stands for [-1]. *)
Fixpoint indexOf (prompt : string) (l : list string) : option nat :=
  match l with
  | [] => None
  | x :: rest =>
      if String.eqb x prompt then Some 0 else S <$> indexOf prompt rest
  end.

Definition toggleFavorite (env : UseLocalStorage.Browser) (prompt : string)
  (st : Store) : Store :=
  saveFavorites env {|
    favorites :=
      match indexOf prompt (favorites st) with
      | Some index => delete index (favorites st)   (* splice(index, 1) *)
      | None => favorites st ++ [prompt]            (* push(prompt) *)
      end;
    stored := stored st
  |}.

(** [favorites.includes(prompt)] *)
Definition isFavorite (prompt : string) (st : Store) : bool :=
  bool_decide (prompt ∈ favorites st).

End Favorites.

(** ** Toasts ([useToast])

    The [toasts] ref is shared by every user of the composable.  A pending
    [setTimeout] is kept as the id its callback removes and its delay. *)

Module UseToast.

Record Toast : Type := {
  id : string;
  type : EvaluatePage.ToastType;
  message : string;
  duration : option float
}.

(** [Omit<Toast, 'id'>] *)
Record NewToast : Type := {
  new_type : EvaluatePage.ToastType;
  new_message : string;
  new_duration : option float
}.

Record State : Type := {
  toasts : list Toast;
  timers : list (string * float)
}.

Definition removeToast (target : string) (st : State) : State := {|
  toasts := filter (λ t, negb (String.eqb (id t) target)) (toasts st);
  timers := timers st
|}.

(** [toast.duration || 5000] *)
Definition delay_of (d : option float) : float :=
  match d with
  | Some x => if JsNumber.truthy x then x else 5000%float
  | None => 5000%float
  end.

(** [fresh_id] stands for [Math.random().toString(36).substring(7)]. *)
Definition addToast (fresh_id : string) (toast : NewToast) (st : State)
  : State * string :=
  ({| toasts :=
        toasts st ++ [ {| id := fresh_id; type := new_type toast;
                          message := new_message toast;
                          duration := new_duration toast |} ];
      timers := timers st ++ [(fresh_id, delay_of (new_duration toast))] |},
   fresh_id).

Definition success (fresh_id message : string) (duration : option float)
  (st : State) : State * string :=
  addToast fresh_id
    {| new_type := EvaluatePage.success; new_message := message;
       new_duration := duration |} st.

Definition error (fresh_id message : string) (duration : option float)
  (st : State) : State * string :=
  addToast fresh_id
    {| new_type := EvaluatePage.error_toast; new_message := message;
       new_duration := duration |} st.

(** The first pending timer of [target] runs out: it leaves the pending
    ones and its callback calls [removeToast(target)]. *)
Fixpoint drop_timer (target : string) (l : list (string * float))
  : list (string * float) :=
  match l with
  | [] => []
  | (i, d) :: rest =>
      if String.eqb i target then rest else (i, d) :: drop_timer target rest
  end.

Definition expire (target : string) (st : State) : State :=
  removeToast target
    {| toasts := toasts st; timers := drop_timer target (timers st) |}.

End UseToast.

(** ** What the comparison page shows of a result *)

Module CompareView.
Import Api ComparePage.

(** [result.winner === modelA] and [result.winner === modelB], which
    decide the "Winner" badge of each side. *)
Definition winnerBadgeA (st : State) (r : CompareResult) : bool :=
  match winner r with
  | Some w => String.eqb w (modelA st)
  | None => false
  end.

Definition winnerBadgeB (st : State) (r : CompareResult) : bool :=
  match winner r with
  | Some w => String.eqb w (modelB st)
  | None => false
  end.

(** The border of the winner banner. *)
Definition bannerClass (st : State) (r : CompareResult) : string :=
  if winnerBadgeA st r then "border-blue-500/50 bg-blue-500/5"
  else if winnerBadgeB st r then "border-mistral-500/50 bg-mistral-500/5"
  else "border-dark-600".

(** The two selects ([v-model="modelA"], [v-model="modelB"]), which are
    never disabled: the operator picking [a] and [b]. *)
Definition select_models (a b : string) (st : State) : State := {|
  prompt := prompt st; modelA := a; modelB := b;
  temperature := temperature st; maxTokens := maxTokens st;
  loading := loading st; result := result st
|}.

(** The [ApiCompare] events of a log. *)
Definition is_call (e : Event) : bool :=
  match e with
  | ApiCompare _ _ _ _ _ => true
  | _ => false
  end.

Definition calls (log : list Event) : list Event :=
  filter (λ e, is_call e) log.

End CompareView.

(** ** Other handlers of the evaluation page *)

Module EvaluateActions.
Import Api EvaluatePage.

Definition with_form (p m : string) (t : float) (st : State) : State := {|
  prompt := p; selectedModel := m;
  judgeModel := judgeModel st; selectedStyle := selectedStyle st;
  temperature := t; maxTokens := maxTokens st;
  referenceAnswer := referenceAnswer st;
  enableVariance := enableVariance st; runs := runs st;
  currentRun := currentRun st; loading := loading st;
  result := result st; error := error st
|}.

(** [selectFromHistory(item)]: the temperature is taken over only when
    it is truthy. *)
Definition selectFromHistory (item : UseLocalStorage.EvaluationHistory)
  (st : State) : State * list Event :=
  let t :=
    match UseLocalStorage.temperature item with
    | Json.Num x => if JsNumber.truthy x then x else temperature st
    | Json.Absent | Json.IsNull => temperature st
    end in
  (with_form (UseLocalStorage.prompt item) (UseLocalStorage.model item) t st,
   [Toast success "Loaded from history!"]).

Definition selectTemplate (templatePrompt : string) (st : State)
  : State * list Event :=
  (with_form templatePrompt (selectedModel st) (temperature st) st,
   [Toast success "Template loaded!"]).

(** The [ApiEvaluate] events and the [AddToHistory] events of a log. *)
Definition is_call (e : Event) : bool :=
  match e with
  | ApiEvaluate _ => true
  | _ => false
  end.

Definition calls (log : list Event) : list Event :=
  filter (λ e, is_call e) log.

Definition history_entries (log : list Event)
  : list UseLocalStorage.NewEntry :=
  omap (λ e, match e with AddToHistory item => Some item | _ => None end)
    log.

End EvaluateActions.

(** ** Score colours ([QualityBadge], [ScoreRing], [evaluate.vue],
    [batch.vue]) *)

Module ScoreBands.

(** [score >= bound] *)
Definition ge (score bound : float) : bool := (bound <=? score)%float.

(** [QualityBadge]: the label and the dot. *)
Definition label (score : float) : string :=
  if ge score 8 then "Excellent"
  else if ge score 6 then "Good"
  else "Needs Work".

Definition dotClass (score : float) : string :=
  if ge score 8 then "bg-emerald-400"
  else if ge score 6 then "bg-amber-400"
  else "bg-rose-400".

(** [ScoreRing]: the glow. *)
Definition glowColor (score : float) : string :=
  if ge score 8 then "bg-emerald-500"
  else if ge score 6 then "bg-amber-500"
  else "bg-rose-500".

(** [evaluate.vue]: the bar of a criterion. *)
Definition getScoreBarColor (score : float) : string :=
  if ge score 8 then "bg-gradient-to-r from-emerald-500 to-emerald-400"
  else if ge score 6 then "bg-gradient-to-r from-amber-500 to-amber-400"
  else "bg-gradient-to-r from-rose-500 to-rose-400".

(** [batch.vue]: the bar of a prompt. *)
Definition getScoreColor (score : float) : string :=
  if ge score 8 then "bg-green-500"
  else if ge score 6 then "bg-yellow-500"
  else "bg-red-500".

End ScoreBands.

(** ** The batch page ([batch.vue])

    The counters [currentProgress] and [totalPrompts] hold small integers
    and are kept as integers. *)

Module BatchPage.

Record DatasetInfo : Type := {
  name : string;
  description : option string;
  prompt_count : Z;
  categories : list string
}.

Section WithResult.

(** [BatchEvalResult]; the handlers only store it. *)
Variable BatchEvalResult : Type.

Record State : Type := {
  selectedDataset : string;
  datasets : list DatasetInfo;
  loading : bool;
  result : option BatchEvalResult;
  currentProgress : Z;
  totalPrompts : Z;
  interval : bool                   (* is [progressInterval] running *)
}.

Definition update (busy : bool) (r : option BatchEvalResult)
  (progress : Z) (ticking : bool) (st : State) : State := {|
  selectedDataset := selectedDataset st; datasets := datasets st;
  loading := busy; result := r; currentProgress := progress;
  totalPrompts := totalPrompts st; interval := ticking
|}.

(** The watcher of [selectedDataset]: for a non-empty name,
    [totalPrompts = ds?.prompt_count || 0], [ds] being the first dataset
    of that name. *)
Definition select (chosen : string) (st : State) : State := {|
  selectedDataset := chosen; datasets := datasets st;
  loading := loading st; result := result st;
  currentProgress := currentProgress st;
  totalPrompts :=
    if String.eqb chosen "" then totalPrompts st
    else
      match list_find (λ d, name d = chosen) (datasets st) with
      | Some (_, ds) => prompt_count ds
      | None => 0%Z
      end;
  interval := interval st
|}.

(** [runBatchEval] up to its [await]. *)
Definition start (st : State) : option State :=
  if String.eqb (selectedDataset st) "" then None
  else Some (update true None 0 true st).

(** One firing of the interval. *)
Definition tick (st : State) : State :=
  if interval st && (currentProgress st <? totalPrompts st - 1)%Z
  then update (loading st) (result st) (currentProgress st + 1)
         (interval st) st
  else st.

(** [runBatchEval] from the moment the request settles. *)
Definition settle (outcome : Api.settled BatchEvalResult) (st : State)
  : State :=
  match outcome with
  | Api.Resolved r => update false (Some r) (totalPrompts st) false st
  | Api.Rejected _ => update false (result st) (currentProgress st) false st
  end.

(** [n] firings of the interval. *)
Definition ticks (n : nat) (st : State) : State := Nat.iter n tick st.

End WithResult.

Arguments selectedDataset {_} _.
Arguments datasets {_} _.
Arguments loading {_} _.
Arguments result {_} _.
Arguments currentProgress {_} _.
Arguments totalPrompts {_} _.
Arguments interval {_} _.
Arguments update {_} _ _ _ _ _.
Arguments select {_} _ _.
Arguments start {_} _.
Arguments tick {_} _.
Arguments settle {_} _ _.
Arguments ticks {_} _ _.

End BatchPage.

(** ** More sample inputs *)

Module MoreSamples.
Import Api.

(** What [Samples.compare_backend 7.5 8.2] answers to the request of
    [Samples.two_model_form]. *)
Definition two_model_answer : CompareResult := {|
  cmp_prompt := "Write a Python function for binary search";
  model_a :=
    Samples.answer "Write a Python function for binary search"
      "mistral-small-latest" 7.5;
  model_b :=
    Samples.answer "Write a Python function for binary search"
      "mistral-large-latest" 8.2;
  winner := Some "mistral-large-latest";
  comparison_summary := "One model scored higher"
|}.

(** The evaluation form of a first visit, with a prompt typed in. *)
Definition typed_form : EvaluatePage.State := {|
  EvaluatePage.prompt := "Explain transformers in simple terms";
  EvaluatePage.selectedModel := "mistral-small-latest";
  EvaluatePage.judgeModel := "mistral-large-latest";
  EvaluatePage.selectedStyle := "educational";
  EvaluatePage.temperature := 0.7;
  EvaluatePage.maxTokens := 1024;
  EvaluatePage.referenceAnswer := "";
  EvaluatePage.enableVariance := false;
  EvaluatePage.runs := 5;
  EvaluatePage.currentRun := 0;
  EvaluatePage.loading := false;
  EvaluatePage.result := None;
  EvaluatePage.error := None
|}.

(** A backend for [evaluate] that is down. *)
Definition failing_backend (req : EvaluatePage.EvalRequest)
  : settled EvalResult :=
  Rejected "Failed to fetch".

End MoreSamples.

(** * Properties *)

(** ** Comparing numbers *)

Module JsNumberFacts.
Import JsNumber.

Lemma SFcompare_antisym x y c :
  SFcompare x y = Some c → SFcompare y x = Some (CompOpp c).
Proof.
  destruct x as [sx|sx| |sx mx ex], y as [sy|sy| |sy my ey]; simpl;
    try discriminate;
    try (intros [= <-];
         repeat match goal with b : bool |- _ => destruct b end;
         reflexivity).
  intros [= <-]. f_equal.
  change (PosDef.Pos.compare_cont Eq my mx) with (Pos.compare my mx).
  change (PosDef.Pos.compare_cont Eq mx my) with (Pos.compare mx my).
  rewrite (Z.compare_antisym ex ey), (Pos.compare_antisym mx my).
  destruct sx, sy; simpl; try reflexivity;
    destruct (ex ?= ey)%Z; simpl; try reflexivity;
    destruct (Pos.compare mx my); reflexivity.
Qed.

(** [>] is asymmetric. *)
Lemma gt_asym a b : gt a b = true → gt b a = false.
Proof.
  unfold gt. rewrite !FloatAxioms.ltb_spec. unfold SFltb.
  destruct (SFcompare (Prim2SF b) (Prim2SF a)) as [c|] eqn:E;
    [|discriminate].
  apply SFcompare_antisym in E. rewrite E. by destruct c.
Qed.

(** Equal numbers are not above one another. *)
Lemma eqb_not_gt a b :
  (a =? b)%float = true → gt a b = false ∧ gt b a = false.
Proof.
  unfold gt. rewrite FloatAxioms.eqb_spec, !FloatAxioms.ltb_spec.
  unfold SFeqb, SFltb.
  destruct (SFcompare (Prim2SF a) (Prim2SF b)) as [c|] eqn:E;
    [|discriminate].
  pose proof (SFcompare_antisym _ _ _ E) as E'. rewrite E'.
  by destruct c.
Qed.

(** Two numbers that [==] tells apart are different. *)
Lemma eqb_false_neq a b :
  (a =? b)%float = false → isNaN a = false → a ≠ b.
Proof.
  intros Hab Ha <-. unfold isNaN in Ha.
  rewrite Hab in Ha. discriminate.
Qed.

End JsNumberFacts.

(** ** The cost estimate *)

Module CostCalculatorFacts.
Import CostCalculator.

Lemma modelPricing_get_Entry m p :
  modelPricing !! m = Some p → modelPricing_get m = Entry p.
Proof. intros H. unfold modelPricing_get. by rewrite H. Qed.

(** Nothing is found exactly for the ids that are neither keys of the
    table nor names of [Object.prototype]. *)
Lemma modelPricing_get_Missing m :
  modelPricing_get m = Missing
  ↔ modelPricing !! m = None ∧ m ∉ Object_prototype_names.
Proof.
  unfold modelPricing_get.
  destruct (modelPricing !! m) as [p|].
  - split; [discriminate | intros [[=] _]].
  - case_bool_decide; intuition congruence.
Qed.

(** The six priced models. *)
Lemma modelPricing_keys m :
  is_Some (modelPricing !! m)
  ↔ m ∈ [ "mistral-small-latest"; "mistral-medium-latest";
          "mistral-large-latest"; "open-mistral-7b"; "open-mixtral-8x7b";
          "open-mixtral-8x22b" ].
Proof.
  unfold modelPricing. rewrite <- elem_of_dom, dom_list_to_map_L.
  rewrite elem_of_list_to_set. reflexivity.
Qed.

(** What the component shows for the documented request: 7 estimated
    input tokens and 1024 output tokens of "mistral-small-latest". *)
Example documented_estimate :
  componentTotalCost documented_props
  = (7 / 1000 * 0.002 + 1024 / 1000 * 0.006)%float
  ∧ highCostWarning documented_props = false.
Proof. split; by vm_compute. Qed.

(** Splitting always yields a piece. *)
Lemma split_spaces_from_nonempty in_run cur s :
  1 ≤ length (JsString.split_spaces_from in_run cur s).
Proof.
  revert in_run cur.
  induction s as [|c s IH]; intros in_run cur; simpl; [lia|].
  destruct (JsString.is_space c); [destruct in_run|]; simpl;
    auto with lia.
Qed.

Lemma words_positive prompt : 1 ≤ words prompt.
Proof. apply split_spaces_from_nonempty. Qed.

(** C1: for every model of the price table and all token counts, the
    estimated cost is [input_tokens/1000] times the input price per 1K
    plus [output_tokens/1000] times the output price per 1K; and for
    "mistral-small-latest", priced 0.002 and 0.006, with 1000 input and
    1000 output tokens the cost is 0.008. *)
Theorem totalCost_priced_model :
  (∀ (m : string) (p : pricing) (inputTokens outputTokens : float),
     modelPricing !! m = Some p →
     totalCost m inputTokens outputTokens
     = (inputTokens / 1000 * input p + outputTokens / 1000 * output p)%float)
  ∧ modelPricing !! "mistral-small-latest"
    = Some (Pricing "Mistral Small" 0.002 0.006)
  ∧ totalCost "mistral-small-latest" 1000 1000 = 0.008%float.
Proof.
  split; [|split].
  - intros m p i o Hm. unfold totalCost, inputCost, outputCost.
    by rewrite (modelPricing_get_Entry _ _ Hm).
  - by vm_compute.
  - by vm_compute.
Qed.

Lemma totalCost_priced_model_witness :
  modelPricing !! "mistral-large-latest"
  = Some (Pricing "Mistral Large" 0.004 0.012)
  ∧ totalCost "mistral-large-latest" 1000 500 = 0.01%float.
Proof.
  split; [by vm_compute|].
  rewrite (proj1 totalCost_priced_model "mistral-large-latest"
             (Pricing "Mistral Large" 0.004 0.012) 1000 500)%float;
    by vm_compute.
Defined.

(** Whenever the lookup finds nothing, the component does what is asked
    of an unknown model: the estimated cost is exactly 0 (input part,
    output part and total), and the pricing footer reads "Unknown model"
    with both prices shown as 0. *)
Lemma missing_model_costs_zero (m : string) (inputTokens maxTokens : float) :
  modelPricing_get m = Missing →
  inputCost m inputTokens = 0%float
  ∧ outputCost m maxTokens = 0%float
  ∧ totalCost m inputTokens maxTokens = 0%float
  ∧ pricingName m = "Unknown model"
  ∧ pricingInput m = 0%float
  ∧ pricingOutput m = 0%float.
Proof.
  intros Hm.
  unfold totalCost, inputCost, outputCost, pricingName, pricingInput,
    pricingOutput.
  rewrite Hm. repeat split; by vm_compute.
Qed.

Example codestral_costs_zero :
  totalCost "codestral-latest" 7 1024 = 0%float
  ∧ pricingName "codestral-latest" = "Unknown model".
Proof. split; by vm_compute. Qed.

(** C5 does not hold of the component for a model id that names a member
    of [Object.prototype]: "constructor" is no key of the price table,
    yet the lookup finds the inherited member, the guard [!pricing] does
    not fire, and the estimate is NaN instead of 0, under a footer that
    reads "Object" instead of "Unknown model". *)
Theorem inherited_name_costs_nan :
  modelPricing !! "constructor" = None
  ∧ modelPricing_get "constructor" = Inherited "constructor"
  ∧ JsNumber.isNaN (inputCost "constructor" 7) = true
  ∧ JsNumber.isNaN (outputCost "constructor" 1024) = true
  ∧ JsNumber.isNaN (totalCost "constructor" 7 1024) = true
  ∧ pricingName "constructor" = "Object".
Proof. repeat split; by vm_compute. Qed.

(** C8, as stated, fails: for the documented request the estimate prices
    7 input and 1024 output tokens, counted from the prompt's five words
    and the [maxTokens] field, while the gateway accounted 23 and 214. *)
Lemma estimate_not_from_gateway :
  costTokenCounts documented_props = (7%float, 1024%float)
  ∧ Api.input_tokens documented_tokens = 23%float
  ∧ ¬ follows_gateway documented_props documented_tokens.
Proof.
  split; [by vm_compute|]. split; [reflexivity|].
  unfold follows_gateway. intros H.
  assert (H7 : fst (costTokenCounts documented_props) = 23%float)
    by (by rewrite H).
  vm_compute in H7.
  by apply (JsNumberFacts.eqb_false_neq 7 23) in H7.
Qed.

End CostCalculatorFacts.

(** ** The comparison page *)

Module ComparePageFacts.
Import Api ComparePage.

Lemma blank_prompt_not_sent compare st :
  blank (prompt st) = true → runComparison compare st = (st, []).
Proof. intros H. unfold runComparison, dispatch. by rewrite H. Qed.

(** A request for two different models and a prompt is sent, once. *)
Lemma runComparison_sends compare st :
  blank (prompt st) = false → modelA st ≠ modelB st →
  ∃ p later,
    (runComparison compare st).2
    = ApiCompare p (modelA st) (modelB st) (temperature st) (maxTokens st)
      :: later.
Proof.
  intros Hp Hne. unfold runComparison, dispatch. rewrite Hp.
  destruct (String.eqb_spec (modelA st) (modelB st)) as [|_]; [done|].
  simpl. destruct (compare _ _ _ _ _); simpl; eauto.
Qed.

(** The page, fed by a backend that follows the engine's rule. *)
Example tie_is_shown :
  winnerHeading <$>
    result (runComparison (Samples.compare_backend 8.0 8.0)
              Samples.two_model_form).1
  = Some "Tie".
Proof. by vm_compute. Qed.

Example winner_is_shown :
  winnerHeading <$>
    result (runComparison (Samples.compare_backend 7.5 8.2)
              Samples.two_model_form).1
  = Some "Winner: mistral-large-latest".
Proof. by vm_compute. Qed.

(** C2: in a two-model comparison the model with the strictly higher
    quality score is the winner; with exactly equal scores there is no
    winner and the summary states the tie.  The page shows the heading
    "Tie" for an absent winner, and its quality bar marks as better the
    side the rule lets win and no side on a tie.  With 8.0 against 8.0
    the winner is absent; with 7.5 against 8.2 the winner is model B. *)
Theorem winner_is_strictly_higher_score :
  (∀ (a b : string) (score_a score_b : float),
     let v := ComparisonEngine.verdict a b score_a score_b in
     (JsNumber.gt score_a score_b = true →
      ComparisonEngine.winner v = Some a
      ∧ ComparisonEngine.summary_states_tie v = false)
     ∧ (JsNumber.gt score_b score_a = true →
        ComparisonEngine.winner v = Some b
        ∧ ComparisonEngine.summary_states_tie v = false)
     ∧ ((score_a =? score_b)%float = true →
        ComparisonEngine.winner v = None
        ∧ ComparisonEngine.summary_states_tie v = true))
  ∧ (∀ r : CompareResult,
       (winner r = None → winnerHeading r = "Tie")
       ∧ ComparisonBar.isABetter (qualityBar r)
         = JsNumber.gt (score (quality (metrics (model_a r))))
             (score (quality (metrics (model_b r))))
       ∧ ComparisonBar.isBBetter (qualityBar r)
         = JsNumber.gt (score (quality (metrics (model_b r))))
             (score (quality (metrics (model_a r))))
       ∧ ((score (quality (metrics (model_a r)))
           =? score (quality (metrics (model_b r))))%float = true →
          ComparisonBar.isABetter (qualityBar r) = false
          ∧ ComparisonBar.isBBetter (qualityBar r) = false))
  ∧ ComparisonEngine.winner (ComparisonEngine.verdict "A" "B" 8.0 8.0)
    = None
  ∧ ComparisonEngine.summary_states_tie
      (ComparisonEngine.verdict "A" "B" 8.0 8.0) = true
  ∧ ComparisonEngine.winner (ComparisonEngine.verdict "A" "B" 7.5 8.2)
    = Some "B".
Proof.
  split; [|split; [|by vm_compute]].
  - intros a b sa sb v. subst v. unfold ComparisonEngine.verdict.
    split; [|split]; intros H.
    + by rewrite H.
    + by rewrite (JsNumberFacts.gt_asym _ _ H), H.
    + by destruct (JsNumberFacts.eqb_not_gt _ _ H) as [-> ->].
  - intros r. split; [|split; [|split]].
    + intros H. unfold winnerHeading. by rewrite H.
    + reflexivity.
    + reflexivity.
    + apply JsNumberFacts.eqb_not_gt.
Qed.

Lemma winner_is_strictly_higher_score_witness :
  JsNumber.gt 9.1 6.4 = true
  ∧ ComparisonEngine.winner
      (ComparisonEngine.verdict "mistral-large-latest"
         "mistral-small-latest" 9.1 6.4)
    = Some "mistral-large-latest".
Proof.
  split; [by vm_compute|].
  apply (proj1 (proj1 winner_is_strictly_higher_score
                  "mistral-large-latest" "mistral-small-latest"
                  9.1 6.4)%float).
  by vm_compute.
Defined.

(** C3: a comparison request whose two model ids are equal is turned down
    before anything is evaluated: whatever the backend would answer, no
    call is issued and the page state, its result included, stays as it
    was; the button is disabled and the page asks for different models. *)
Theorem same_models_rejected
  (compare : EvalPrompt → string → string → float → float →
             settled CompareResult)
  (st : State) :
  modelA st = modelB st →
  runComparison compare st = (st, [])
  ∧ compareDisabled st = true
  ∧ sameModelNotice st = Some "Please select different models to compare".
Proof.
  intros Heq.
  unfold runComparison, dispatch, compareDisabled, sameModelNotice.
  rewrite Heq, String.eqb_refl, !orb_true_r. done.
Qed.

Lemma same_models_rejected_witness :
  ComparePage.modelA Samples.same_model_form
  = ComparePage.modelB Samples.same_model_form
  ∧ runComparison (Samples.compare_backend 8.0 8.0) Samples.same_model_form
    = (Samples.same_model_form, []).
Proof.
  split; [reflexivity|].
  apply (same_models_rejected (Samples.compare_backend 8.0 8.0)
           Samples.same_model_form).
  reflexivity.
Defined.

End ComparePageFacts.

(** ** The evaluation page *)

Module EvaluatePageFacts.
Import Api EvaluatePage.

(** The judge selected on the form travels in the request as it is. *)
Lemma request_of_judge st :
  judge_model (request_of st) = judgeModel st
  ∧ req_model (request_of st) = selectedModel st.
Proof. split; reflexivity. Qed.

(** The only guard of [runEvaluation] is the blank prompt: with a prompt,
    the request is sent whatever judge is selected. *)
Lemma runEvaluation_sends evaluate st :
  blank (prompt st) = false →
  ∃ later, (runEvaluation evaluate st).2 = ApiEvaluate (request_of st) :: later.
Proof.
  intros Hp. unfold runEvaluation, dispatch. rewrite Hp.
  destruct (evaluate (request_of st)) as [r|e]; simpl; eauto.
Qed.

(** C4 does not hold of the page: with the evaluated model selected as
    its own judge, the submit button is enabled and [runEvaluation]
    issues the call, carrying [judge_model] equal to [model]. *)
Theorem self_judged_request_is_sent :
  judgeModel Samples.self_judged_form
  = selectedModel Samples.self_judged_form
  ∧ submitDisabled Samples.self_judged_form = false
  ∧ judge_model (request_of Samples.self_judged_form)
    = req_model (request_of Samples.self_judged_form)
  ∧ ∃ later,
      (runEvaluation Samples.evaluate_backend Samples.self_judged_form).2
      = ApiEvaluate (request_of Samples.self_judged_form) :: later.
Proof.
  split; [reflexivity|]. split; [by vm_compute|]. split; [reflexivity|].
  apply runEvaluation_sends. by vm_compute.
Qed.

(** A successful evaluation is displayed as the backend returned it. *)
Lemma runEvaluation_result evaluate st r :
  blank (prompt st) = false → evaluate (request_of st) = Resolved r →
  result (runEvaluation evaluate st).1 = Some r.
Proof. intros Hp Hr. unfold runEvaluation, dispatch. by rewrite Hp, Hr. Qed.

(** C8, amended: the token counts shown for a completed evaluation are
    the ones of the result the API returned, unchanged; the cost estimate
    of the form, however, is computed from the form alone, without any
    gateway accounting.  Its input token count is [ceil(1.3 * w)],
    [w >= 1] being the number of pieces of the trimmed prompt split at
    white space; its output token count is [maxTokens]; the displayed
    total prices these two counts.  An empty prompt counts 2 tokens, the
    documented five-word prompt 7. *)
Theorem estimate_from_form_alone :
  (∀ (evaluate : EvalRequest → settled EvalResult) (st : State)
     (r : EvalResult),
     blank (prompt st) = false → evaluate (request_of st) = Resolved r →
     tokenUsageShown (runEvaluation evaluate st).1
     = Some (input_tokens (tokens (metrics r)),
             output_tokens (tokens (metrics r)),
             total_tokens (tokens (metrics r))))
  ∧ (∀ props : CostCalculator.Props,
       CostCalculator.costTokenCounts props
       = (JsNumber.ceil
            (JsNumber.of_Z
               (Z.of_nat (CostCalculator.words (CostCalculator.prompt props)))
             * 1.3)%float,
          CostCalculator.maxTokens props)
       ∧ 1 ≤ CostCalculator.words (CostCalculator.prompt props)
       ∧ CostCalculator.componentTotalCost props
         = CostCalculator.totalCost (CostCalculator.model props)
             (CostCalculator.costTokenCounts props).1
             (CostCalculator.costTokenCounts props).2)
  ∧ CostCalculator.estimatedInputTokens "" = 2%float
  ∧ CostCalculator.estimatedInputTokens
      "Explain transformers in simple terms" = 7%float.
Proof.
  split; [|split; [|split; by vm_compute]].
  - intros evaluate st r Hp Hr. unfold tokenUsageShown.
    by rewrite (runEvaluation_result _ _ _ Hp Hr).
  - intros props. split; [reflexivity|].
    split; [apply CostCalculatorFacts.words_positive|reflexivity].
Qed.

Lemma estimate_from_form_alone_witness :
  blank (prompt Samples.self_judged_form) = false
  ∧ tokenUsageShown
      (runEvaluation Samples.evaluate_backend Samples.self_judged_form).1
    = Some (23%float, 214%float, 237%float).
Proof.
  split; [by vm_compute|].
  exact (proj1 estimate_from_form_alone Samples.evaluate_backend
           Samples.self_judged_form
           (Samples.answer "Explain transformers in simple terms"
              "mistral-large-latest" 8.6)
           eq_refl eq_refl).
Defined.

End EvaluatePageFacts.

(** ** The variance badge *)

Module VarianceChartFacts.
Import VarianceChart.

(** A coefficient sent by the backend is used as it is when it is truthy;
    otherwise the quotient is computed, whatever the mean. *)
Lemma cv_fallback stats :
  divides stats = true → cv stats = (std_dev stats / mean stats)%float.
Proof.
  unfold divides, cv.
  destruct (coefficient_of_variation stats) as [c|]; [|done].
  by destruct (JsNumber.truthy c).
Qed.

Lemma cv_given stats c :
  coefficient_of_variation stats = Some c → JsNumber.truthy c = true →
  cv stats = c ∧ divides stats = false.
Proof. intros Hc Ht. unfold cv, divides. by rewrite Hc, Ht. Qed.

(** C6 does not hold of the badge: for runs that all scored 0 the mean is
    zero, the quotient [std_dev / mean] is computed all the same, it is
    NaN, and the sample without any variance is classified [poor]; the
    same constant sample with a nonzero score is [excellent]. *)
Theorem zero_mean_is_divided :
  mean (Samples.constant_scores 0) = 0%float
  ∧ divides (Samples.constant_scores 0) = true
  ∧ JsNumber.isNaN (cv (Samples.constant_scores 0)) = true
  ∧ varianceQuality (Samples.constant_scores 0) = poor
  ∧ varianceQuality (Samples.constant_scores 5) = excellent.
Proof. repeat split; by vm_compute. Qed.

End VarianceChartFacts.

(** ** The API client *)

Module UseApiFacts.
Import UseApi.

Section WithNumberToString.

Variable Number_toString : float → string.

(** A failing response is never returned as data. *)
Lemma apiFetch_failure_throws r :
  ok r = false → ∃ e, apiFetch Number_toString r = Throws e.
Proof.
  intros Hok. unfold apiFetch. rewrite Hok. simpl.
  destruct (Json.get _ _) as [[|v]|]; [eauto| |eauto].
  destruct (Json.truthy v); [|eauto].
  destruct (ToString _ v); eauto.
Qed.

(** Two failing responses whose bodies are not JSON are thrown as the
    same error, whatever their statuses. *)
Lemma plain_failures_alike status1 status2 :
  apiFetch Number_toString (Samples.plain_failure status1)
  = apiFetch Number_toString (Samples.plain_failure status2).
Proof. reflexivity. Qed.

End WithNumberToString.

(** C9, as stated, fails: a failing call answered with status 429 and one
    answered with status 504, their bodies not being JSON, are both
    thrown as the bare [Error] with the message "Unknown error".  So if
    two failing responses whose bodies are not JSON are of different
    kinds, in whichever way responses tell their kind, no reading of the
    thrown error recovers the kind. *)
Lemma kinds_are_collapsed :
  (∀ Number_toString : float → string,
     apiFetch Number_toString (Samples.plain_failure 429)
     = Throws (Error "Unknown error")
     ∧ apiFetch Number_toString (Samples.plain_failure 504)
       = Throws (Error "Unknown error"))
  ∧ (∀ (Number_toString : float → string) (reported : Response → ErrorKind)
       (status1 status2 : nat),
       reported (Samples.plain_failure status1)
       ≠ reported (Samples.plain_failure status2) →
       ¬ kind_survives Number_toString reported).
Proof.
  split; [by intros N|].
  intros N reported s1 s2 Hdiff [classify Hc].
  apply Hdiff.
  rewrite <- (Hc (Samples.plain_failure s1) eq_refl).
  rewrite <- (Hc (Samples.plain_failure s2) eq_refl).
  by rewrite (plain_failures_alike N s1 s2).
Qed.

(** C9, amended: a failing response is thrown as a plain [Error] carrying
    one message and nothing else.  The message is "Unknown error" when
    the body is not JSON; the string form of the body's [detail] (the
    detail itself when it is a string) when the body is an object with a
    truthy [detail] that has a string form; and "HTTP <status>" when the
    body is an object, array, string, number or boolean without a truthy
    [detail].  In the first two cases the thrown error does not depend
    on the status. *)
Theorem apiFetch_failure_message
  (Number_toString : float → string) (r : Response) :
  ok r = false →
  (body r = None →
   apiFetch Number_toString r = Throws (Error "Unknown error"))
  ∧ (∀ fields v,
       body r = Some (Json.Object fields) →
       Json.assoc "detail" fields = Json.Defined v →
       Json.truthy v = true →
       (∀ message, ToString Number_toString v = Some message →
          apiFetch Number_toString r = Throws (Error message))
       ∧ (∀ text, v = Json.Str text →
            apiFetch Number_toString r = Throws (Error text)))
  ∧ (∀ data member,
       body r = Some data →
       Json.get data "detail" = Some member →
       Json.slot_truthy member = false →
       apiFetch Number_toString r
       = Throws (Error ("HTTP " +:+ JsString.of_nat (status r))))
  ∧ (∀ r' : Response,
       ok r' = false → body r' = body r →
       (body r = None
        ∨ ∃ fields, body r = Some (Json.Object fields)
                    ∧ Json.slot_truthy (Json.assoc "detail" fields) = true) →
       apiFetch Number_toString r' = apiFetch Number_toString r).
Proof.
  intros Hok. unfold apiFetch. rewrite Hok. simpl.
  split; [|split; [|split]].
  - by intros ->.
  - intros fields v -> Hd Ht. simpl. rewrite Hd, Ht.
    split; [by intros message ->|]. by intros text ->.
  - intros data member -> Hget Hfalsy. simpl. rewrite Hget.
    destruct member as [|v]; [done|].
    simpl in Hfalsy. by rewrite Hfalsy.
  - intros r' Hok' Hb Hcase. rewrite Hok', Hb. simpl.
    destruct Hcase as [Hnone|(fields & Hf & Ht)].
    + by rewrite Hnone.
    + rewrite Hf. simpl.
      destruct (Json.assoc "detail" fields) as [|v]; [done|].
      simpl in Ht. by rewrite Ht.
Qed.

Lemma apiFetch_failure_message_witness :
  ok (Samples.detailed_failure 429 "Rate limit exceeded") = false
  ∧ (∀ Number_toString : float → string,
       apiFetch Number_toString
         (Samples.detailed_failure 429 "Rate limit exceeded")
       = Throws (Error "Rate limit exceeded"))
  ∧ (∀ Number_toString : float → string,
       apiFetch Number_toString (Samples.detailed_failure 429 "")
       = Throws (Error "HTTP 429")).
Proof.
  split; [reflexivity|]. split.
  - intros N.
    apply (proj2 (proj1 (proj2
      (apiFetch_failure_message N
         (Samples.detailed_failure 429 "Rate limit exceeded") eq_refl))
      [("detail", Json.Str "Rate limit exceeded")]
      (Json.Str "Rate limit exceeded") eq_refl eq_refl eq_refl)).
    reflexivity.
  - intros N.
    apply (proj1 (proj2 (proj2
      (apiFetch_failure_message N (Samples.detailed_failure 429 "")
         eq_refl)))
      (Json.Object [("detail", Json.Str "")])
      (Json.Defined (Json.Str ""))); reflexivity.
Defined.

End UseApiFacts.

(** ** The token stream *)

Module StreamFacts.
Import UseApi.

Section WithParser.

Variable JSON_parse : string → option Json.value.

Abbreviation handle_line := (handle_line JSON_parse).
Abbreviation handle_lines := (handle_lines JSON_parse).
Abbreviation read_loop := (read_loop JSON_parse).
Abbreviation token_of := (token_of JSON_parse).

(** One line: the marker returns, a well-formed data line yields its
    token, anything else is passed over. *)
Lemma handle_line_cases line :
  handle_line line
  = if is_marker line then Return
    else match token_of line with
         | Some token => Yield token
         | None => Skip
         end.
Proof.
  unfold UseApi.handle_line, is_marker, UseApi.token_of.
  destruct (JsString.startsWith line "data: "); simpl; [|done].
  destruct (String.eqb (JsString.slice 6 line) "[DONE]"); [done|].
  destruct (JSON_parse (JsString.slice 6 line)) as [parsed|]; simpl; [|done].
  destruct (Json.get parsed "token") as [[|token]|]; simpl; try done.
  by destruct (Json.truthy token).
Qed.

(** The lines of one read: the tokens before the marker, and whether the
    marker was met. *)
Lemma handle_lines_cut lines :
  handle_lines lines
  = (omap token_of (before_marker lines), existsb is_marker lines).
Proof.
  induction lines as [|line rest IH]; [done|].
  cbn [UseApi.handle_lines before_marker existsb].
  rewrite handle_line_cases.
  destruct (is_marker line); [done|].
  cbn [omap list_omap orb]. rewrite IH.
  by destruct (token_of line).
Qed.

Lemma before_marker_app l1 l2 :
  before_marker (l1 ++ l2)
  = if existsb is_marker l1 then before_marker l1
    else l1 ++ before_marker l2.
Proof.
  induction l1 as [|line l1 IH]; [done|].
  cbn [app before_marker existsb].
  destruct (is_marker line); [done|].
  cbn [orb]. rewrite IH. by destruct (existsb is_marker l1).
Qed.

Lemma before_marker_no_marker lines :
  existsb is_marker lines = false → before_marker lines = lines.
Proof.
  induction lines as [|line rest IH]; [done|].
  cbn [existsb before_marker].
  destruct (is_marker line); [done|].
  intros H. by rewrite (IH H).
Qed.

Lemma read_loop_tokens reads :
  read_loop reads = tokens_until_marker JSON_parse reads.
Proof.
  unfold tokens_until_marker, arriving_lines.
  induction reads as [|text later IH]; [done|].
  cbn [UseApi.read_loop map concat].
  rewrite handle_lines_cut, before_marker_app.
  destruct (existsb is_marker (JsString.split_char JsString.newline text))
    eqn:Hm; [done|].
  rewrite omap_app, IH. f_equal.
  by rewrite (before_marker_no_marker _ Hm).
Qed.

(** Reads that follow the one holding the marker change nothing. *)
Lemma read_loop_stops earlier text later :
  existsb is_marker (JsString.split_char JsString.newline text) = true →
  read_loop (earlier ++ text :: later) = read_loop (earlier ++ [text]).
Proof.
  intros Hm.
  induction earlier as [|e earlier IH]; cbn [app UseApi.read_loop].
  - rewrite handle_lines_cut, Hm. done.
  - rewrite IH. done.
Qed.

(** No line at or after the marker is among the lines that give tokens. *)
Lemma before_marker_prefix lines :
  ∃ rest, lines = before_marker lines ++ rest
          ∧ (rest = [] ∨ ∃ m rest', rest = m :: rest' ∧ is_marker m = true)
          ∧ Forall (λ line, is_marker line = false) (before_marker lines).
Proof.
  induction lines as [|line lines (rest & Hl & Hr & Hf)].
  - exists []. auto.
  - cbn [before_marker]. destruct (is_marker line) eqn:Hm.
    + exists (line :: lines). split; [done|].
      split; [right; eauto|constructor].
    + exists rest. split; [simpl; congruence|]. split; [done|].
      by constructor.
Qed.

End WithParser.

(** X23: the generator is a total function of the finite sequence of
    reads, each of which it cuts into lines on its own.  It yields
    exactly the tokens of the well-formed data lines among these pieces,
    in arrival order, that come before the first piece that is the
    end-of-stream marker [data: [DONE]] (all of them when no piece is),
    and yields nothing for that piece or for anything after it, be it in
    the same read or in later reads; a response without body yields
    nothing. *)
Theorem streamEvaluate_until_marker (JSON_parse : string → option Json.value) :
  (∀ reads : list string,
     streamEvaluate JSON_parse (Some reads)
     = omap (token_of JSON_parse) (before_marker (arriving_lines reads)))
  ∧ (∀ reads : list string,
       ∃ rest,
         arriving_lines reads = before_marker (arriving_lines reads) ++ rest
         ∧ (rest = [] ∨ ∃ m rest', rest = m :: rest' ∧ is_marker m = true)
         ∧ Forall (λ line, is_marker line = false)
             (before_marker (arriving_lines reads)))
  ∧ (∀ (earlier : list string) (text : string) (later : list string),
       existsb is_marker (JsString.split_char JsString.newline text) = true →
       streamEvaluate JSON_parse (Some (earlier ++ text :: later))
       = streamEvaluate JSON_parse (Some (earlier ++ [text])))
  ∧ streamEvaluate JSON_parse None = [].
Proof.
  split; [|split; [|split]].
  - intros reads. apply read_loop_tokens.
  - intros reads. apply before_marker_prefix.
  - intros earlier text later Hm. by apply read_loop_stops.
  - reflexivity.
Qed.

Lemma streamEvaluate_until_marker_witness :
  existsb is_marker
    (JsString.split_char JsString.newline
       (Samples.event "[DONE]" +:+ Samples.event (Samples.token_json "late")))
  = true
  ∧ streamEvaluate Samples.parse_sample (Some Samples.sample_reads)
    = [Json.Str "Hel"; Json.Str "lo"].
Proof.
  split; [by vm_compute|].
  etrans.
  - exact (proj1 (proj2 (proj2
             (streamEvaluate_until_marker Samples.parse_sample)))
             [Samples.event (Samples.token_json "Hel")
              +:+ Samples.event (Samples.token_json "lo")]
             (Samples.event "[DONE]"
              +:+ Samples.event (Samples.token_json "late"))
             [Samples.event (Samples.token_json "later")]
             eq_refl).
  - by vm_compute.
Defined.

End StreamFacts.

(** ** The evaluation history *)

Module UseLocalStorageFacts.
Import UseLocalStorage.

Lemma saveHistory_history env st :
  history (saveHistory env st) = history st.
Proof.
  unfold saveHistory.
  by destruct (has_window env), (setItem_succeeds env).
Qed.

Lemma saveHistory_stored env st :
  has_window env = true → setItem_succeeds env = true →
  stored (saveHistory env st) = Some (history st).
Proof. intros Hw Hs. unfold saveHistory. by rewrite Hw, Hs. Qed.

(** What [unshift] followed by the conditional [slice] leaves. *)
Lemma addToHistory_history env item fresh_id now st :
  history (addToHistory env item fresh_id now st)
  = take MAX_HISTORY (newItem item fresh_id now :: history st).
Proof.
  unfold addToHistory. rewrite saveHistory_history. cbn [history].
  destruct (Nat.ltb_spec MAX_HISTORY
              (length (newItem item fresh_id now :: history st)))
    as [Hlt|Hge]; [done|].
  by rewrite take_ge.
Qed.

(** C10: after [addToHistory] the history holds at most 50 entries, the
    new entry is at position 0, the entries that were at positions 0 to
    48 follow it unchanged and in order, and nothing else is kept: what
    is discarded are the oldest entries, those pushed to position 50 and
    beyond.  Below the limit nothing is discarded.  The list written to
    local storage, when the write goes through, is this same list. *)
Theorem addToHistory_keeps_latest_50
  (env : Browser) (item : NewEntry) (fresh_id now : string) (st : Store) :
  let st' := addToHistory env item fresh_id now st in
  length (history st') ≤ 50
  ∧ history st' !! 0 = Some (newItem item fresh_id now)
  ∧ history st' = newItem item fresh_id now :: take 49 (history st)
  ∧ (∀ i, i < 49 → history st' !! S i = history st !! i)
  ∧ (∀ i, 50 ≤ i → history st' !! i = None)
  ∧ (length (history st) < 50 →
     history st' = newItem item fresh_id now :: history st)
  ∧ (has_window env = true → setItem_succeeds env = true →
     stored st' = Some (history st')).
Proof.
  intros st'. subst st'.
  assert (Hh : history (addToHistory env item fresh_id now st)
               = newItem item fresh_id now :: take 49 (history st))
    by apply addToHistory_history.
  rewrite Hh.
  split; [|split; [|split; [|split; [|split; [|split]]]]].
  - cbn [length]. rewrite length_take. lia.
  - done.
  - done.
  - intros i Hi. cbn [lookup]. simpl. by apply lookup_take_lt.
  - intros i Hi. apply lookup_ge_None_2. cbn [length].
    rewrite length_take. lia.
  - intros Hlen. f_equal. apply take_ge. lia.
  - intros Hw Hs. rewrite <- Hh. unfold addToHistory.
    rewrite saveHistory_history. by apply saveHistory_stored.
Qed.

Lemma addToHistory_keeps_latest_50_witness :
  length (history Samples.full_store) = 50
  ∧ length (history (addToHistory Samples.a_browser Samples.new_entry
                       "k3x9f" "2025-01-16T09:30:00.000Z"
                       Samples.full_store)) ≤ 50.
Proof.
  split; [by vm_compute|].
  apply (addToHistory_keeps_latest_50 Samples.a_browser Samples.new_entry
           "k3x9f" "2025-01-16T09:30:00.000Z" Samples.full_store).
Defined.

End UseLocalStorageFacts.

(** ** More on the evaluation history *)

Module HistoryFacts.
Import UseLocalStorage HistoryPersistence.

Lemma filter_all {A} (P : A → Prop) `{∀ x, Decision (P x)} (l : list A) :
  Forall P l → filter P l = l.
Proof.
  induction 1 as [|x l Hx _ IH]; [done|].
  by rewrite filter_cons_True, IH.
Qed.

Lemma not_id_iff (e : EvaluationHistory) target :
  negb (String.eqb (id e) target) ↔ id e ≠ target.
Proof.
  destruct (String.eqb_spec (id e) target); simpl; naive_solver.
Qed.

Lemma removeFromHistory_history env target st :
  history (removeFromHistory env target st)
  = filter (λ e, id e ≠ target) (history st).
Proof.
  unfold removeFromHistory. rewrite UseLocalStorageFacts.saveHistory_history.
  cbn [history]. apply list_filter_iff. intros e. apply not_id_iff.
Qed.

Lemma clearHistory_history env st : history (clearHistory env st) = [].
Proof.
  unfold clearHistory. by rewrite UseLocalStorageFacts.saveHistory_history.
Qed.

Lemma apply_stored env st op :
  has_window env = true → setItem_succeeds env = true →
  stored (apply env st op) = Some (history (apply env st op)).
Proof.
  intros Hw Hs.
  destruct op; cbn [apply];
    unfold addToHistory, removeFromHistory, clearHistory;
    rewrite UseLocalStorageFacts.saveHistory_history;
    by apply UseLocalStorageFacts.saveHistory_stored.
Qed.

Lemma apply_stored_unwritten env st op :
  has_window env = false ∨ setItem_succeeds env = false →
  stored (apply env st op) = stored st.
Proof.
  intros Hfail.
  destruct op; cbn [apply];
    unfold addToHistory, removeFromHistory, clearHistory, saveHistory;
    destruct Hfail as [->| ->]; simpl; try done;
    by destruct (has_window env).
Qed.

Lemma apply_length env st op :
  length (history (apply env st op)) ≤ max 50 (length (history st)).
Proof.
  destruct op as [item fresh_id now|target|]; cbn [apply].
  - pose proof (UseLocalStorageFacts.addToHistory_history
                  env item fresh_id now st) as ->.
    rewrite length_take. unfold MAX_HISTORY. lia.
  - rewrite removeFromHistory_history.
    pose proof (length_filter (λ e, id e ≠ target) (history st)). lia.
  - rewrite clearHistory_history. simpl. lia.
Qed.

(** X1: [removeFromHistory] keeps exactly the entries whose id differs
    from the target, in their order; it removes every entry with that id,
    never lengthens the history, and removing the same id again changes
    nothing. *)
Theorem removeFromHistory_removes_id
  (env : Browser) (target : string) (st : Store) :
  let st' := removeFromHistory env target st in
  (∀ e, e ∈ history st' ↔ e ∈ history st ∧ id e ≠ target)
  ∧ history st' `sublist_of` history st
  ∧ length (history st') ≤ length (history st)
  ∧ history (removeFromHistory env target st') = history st'.
Proof.
  intros st'. subst st'. rewrite !removeFromHistory_history.
  split; [|split; [|split]].
  - intros e. rewrite list_elem_of_filter. tauto.
  - apply sublist_filter.
  - apply length_filter.
  - by apply list_filter_filter_r.
Qed.

(** X2: adding an entry under an id no stored entry carries and removing
    that id again gives back the first 49 entries of the history: the
    history itself when it held fewer than 50, and the history without
    its oldest entries when it was full. *)
Theorem add_then_remove
  (env : Browser) (item : NewEntry) (fresh_id now : string) (st : Store) :
  Forall (λ e, id e ≠ fresh_id) (history st) →
  history (removeFromHistory env fresh_id
             (addToHistory env item fresh_id now st))
  = take 49 (history st)
  ∧ (length (history st) < 50 →
     history (removeFromHistory env fresh_id
                (addToHistory env item fresh_id now st))
     = history st).
Proof.
  intros Hfresh.
  assert (H49 : history (removeFromHistory env fresh_id
                           (addToHistory env item fresh_id now st))
                = take 49 (history st)).
  { rewrite removeFromHistory_history.
    pose proof (UseLocalStorageFacts.addToHistory_history
                  env item fresh_id now st) as ->.
    change (take MAX_HISTORY (newItem item fresh_id now :: history st))
      with (newItem item fresh_id now :: take 49 (history st)).
    rewrite filter_cons_False by (simpl; tauto).
    apply filter_all. by apply Forall_take. }
  split; [done|].
  intros Hlen. rewrite H49. apply take_ge. lia.
Qed.

Lemma add_then_remove_witness :
  Forall (λ e, id e ≠ "k3x9f") (history Samples.full_store)
  ∧ length (history (removeFromHistory Samples.a_browser "k3x9f"
                       (addToHistory Samples.a_browser Samples.new_entry
                          "k3x9f" "2025-01-16T09:30:00.000Z"
                          Samples.full_store)))
    = 49.
Proof.
  assert (H : Forall (λ e, id e ≠ "k3x9f") (history Samples.full_store))
    by (apply (bool_decide_unpack _); by vm_compute).
  split; [done|].
  rewrite (proj1 (add_then_remove Samples.a_browser Samples.new_entry
                    "k3x9f" "2025-01-16T09:30:00.000Z"
                    Samples.full_store H)).
  by vm_compute.
Defined.

Lemma run_snoc env ops op st :
  run env (ops ++ [op]) st = apply env (run env ops st) op.
Proof. unfold run. apply foldl_snoc. Qed.

Lemma instance_history env saved :
  has_window env = true →
  history (instance env (Some saved)) = map JSON_entry saved.
Proof. intros Hw. unfold instance, loadHistory. by rewrite Hw. Qed.

(** Numbers that JSON text carries as they are come back unchanged, and
    whatever comes back is carried as it is from then on. *)
Lemma JSON_number_exact x :
  JSON_exact_number x = true → JSON_number x = Json.Num x.
Proof.
  unfold JSON_exact_number, JSON_number.
  destruct (Prim2SF x) as [negative| | |] eqn:Hx; try done.
  destruct negative; [done|]. intros _.
  by rewrite <- (SF2Prim_Prim2SF x), Hx.
Qed.

Lemma JSON_number_settled x : JSON_member (JSON_number x) = JSON_number x.
Proof.
  unfold JSON_number.
  destruct (Prim2SF x) eqn:Hx; try done.
  cbn [JSON_member]. unfold JSON_number. by rewrite Hx.
Qed.

Lemma JSON_member_exact m :
  JSON_exact_member m = true → JSON_member m = m.
Proof. destruct m; [done..|]. apply JSON_number_exact. Qed.

Lemma JSON_member_settled m : JSON_member (JSON_member m) = JSON_member m.
Proof. destruct m; [done..|]. apply JSON_number_settled. Qed.

Lemma JSON_entry_exact e : JSON_exact e = true → JSON_entry e = e.
Proof.
  unfold JSON_exact, JSON_entry. intros [Hs Ht]%andb_true_iff.
  rewrite (JSON_member_exact _ Hs), (JSON_member_exact _ Ht).
  by destruct e.
Qed.

Lemma JSON_entry_settled e : JSON_entry (JSON_entry e) = JSON_entry e.
Proof.
  unfold JSON_entry. cbn [id prompt model timestamp score temperature].
  by rewrite !JSON_member_settled.
Qed.

(** X3: in a browser where writes go through, after any non-empty
    sequence of additions, removals and clearings, local storage holds
    the text of the history in memory, and a new call of the composable
    loads what JSON reads back of it: as many entries, in the same
    order, with the same ids, prompts, models and timestamps; a score or
    temperature that is NaN or infinite comes back as [null], and [-0] as
    [0].  So the loaded history is the one in memory when every score
    and temperature in it is finite and not [-0], and saving and loading
    what was loaded gives it back as it is.  Where there is no window or
    the write fails, the sequence leaves local storage as it was. *)
Theorem saved_history_is_reloaded
  (env : Browser) (ops : list Op) (st : Store) :
  ops ≠ [] →
  (has_window env = true → setItem_succeeds env = true →
   let memory := history (run env ops st) in
   let reloaded := history (instance env (stored (run env ops st))) in
   stored (run env ops st) = Some memory
   ∧ reloaded = map JSON_entry memory
   ∧ length reloaded = length memory
   ∧ map id reloaded = map id memory
   ∧ map prompt reloaded = map prompt memory
   ∧ map model reloaded = map model memory
   ∧ map timestamp reloaded = map timestamp memory
   ∧ (Forall (λ e, JSON_exact e = true) memory → reloaded = memory)
   ∧ history (instance env (Some reloaded)) = reloaded)
  ∧ (has_window env = false ∨ setItem_succeeds env = false →
     stored (run env ops st) = stored st).
Proof.
  intros Hne. split.
  - intros Hw Hs memory reloaded. subst memory reloaded.
    destruct ops as [|op ops _] using rev_ind; [done|].
    rewrite run_snoc.
    rewrite (apply_stored _ _ _ Hw Hs). split; [done|].
    rewrite !(instance_history _ _ Hw).
    split; [done|]. split; [apply length_map|].
    rewrite !map_map.
    do 4 (split; [done|]). split.
    + intros Hexact. etrans; [|apply map_id].
      apply map_ext_Forall.
      eapply Forall_impl; [exact Hexact|]. intros e. apply JSON_entry_exact.
    + apply map_ext. intros e. apply JSON_entry_settled.
  - intros Hfail. clear Hne.
    induction ops as [|op ops IH] using rev_ind; [done|].
    rewrite run_snoc. by rewrite apply_stored_unwritten.
Qed.

Lemma saved_history_is_reloaded_witness :
  [Add Samples.new_entry "k3x9f" "2025-01-16T09:30:00.000Z";
   Remove "7"; Remove "k3x9f"] ≠ []
  ∧ history (instance Samples.a_browser
       (stored (run Samples.a_browser
          [Add Samples.new_entry "k3x9f" "2025-01-16T09:30:00.000Z";
           Remove "7"; Remove "k3x9f"]
          Samples.full_store)))
    = history (run Samples.a_browser
         [Add Samples.new_entry "k3x9f" "2025-01-16T09:30:00.000Z";
          Remove "7"; Remove "k3x9f"]
         Samples.full_store).
Proof.
  split; [done|].
  refine (proj1 (proj2 (proj2 (proj2 (proj2 (proj2 (proj2 (proj2
    (proj1 (saved_history_is_reloaded Samples.a_browser
              [Add Samples.new_entry "k3x9f" "2025-01-16T09:30:00.000Z";
               Remove "7"; Remove "k3x9f"]
              Samples.full_store _) eq_refl eq_refl)))))))) _);
    [done|].
  apply (bool_decide_unpack _). by vm_compute.
Defined.

(** X4: two users of the composable do not share their history.  When
    one adds an entry and the other, whose list does not hold it, then
    removes some id, local storage is overwritten with the second list:
    the added entry, which had been stored, is no longer stored. *)
Theorem stale_instance_overwrites
  (env : Browser) (item : NewEntry) (fresh_id now target : string)
  (page panel : Store) :
  has_window env = true → setItem_succeeds env = true →
  newItem item fresh_id now ∉ history panel →
  let page' := addToHistory env item fresh_id now page in
  let panel' := removeFromHistory env target (after_write_of page' panel) in
  (∃ saved, stored page' = Some saved ∧ newItem item fresh_id now ∈ saved)
  ∧ history panel' = filter (λ e, id e ≠ target) (history panel)
  ∧ stored panel' = Some (history panel')
  ∧ newItem item fresh_id now ∉ history panel'.
Proof.
  intros Hw Hs Hnew page' panel'. subst page' panel'.
  split; [|split; [|split]].
  - exists (history (addToHistory env item fresh_id now page)). split.
    + exact (apply_stored env page (Add item fresh_id now) Hw Hs).
    + pose proof (UseLocalStorageFacts.addToHistory_history
                    env item fresh_id now page) as ->.
      apply list_elem_of_here.
  - by rewrite removeFromHistory_history.
  - exact (apply_stored env _ (Remove target) Hw Hs).
  - rewrite removeFromHistory_history. cbn [after_write_of history].
    rewrite list_elem_of_filter. tauto.
Qed.

Lemma stale_instance_overwrites_witness :
  (newItem Samples.new_entry "k3x9f" "2025-01-16T09:30:00.000Z"
   ∉ history Samples.full_store)
  ∧ length (default []
      (stored (removeFromHistory Samples.a_browser "7"
         (after_write_of
            (addToHistory Samples.a_browser Samples.new_entry "k3x9f"
               "2025-01-16T09:30:00.000Z" Samples.full_store)
            Samples.full_store))))
    = 49.
Proof.
  assert (H : newItem Samples.new_entry "k3x9f" "2025-01-16T09:30:00.000Z"
              ∉ history Samples.full_store).
  { intros Hin. apply list_elem_of_fmap in Hin as (n & Heq & _).
    apply (f_equal timestamp) in Heq. discriminate. }
  split; [done|].
  destruct (stale_instance_overwrites Samples.a_browser Samples.new_entry
              "k3x9f" "2025-01-16T09:30:00.000Z" "7"
              Samples.full_store Samples.full_store eq_refl eq_refl H)
    as (_ & _ & -> & _).
  by vm_compute.
Defined.

(** X5: whatever sequence of additions, removals and clearings is run,
    the history never gets longer than 50, or than it was when it was
    longer than that; a history of at most 50 entries stays so. *)
Theorem history_stays_bounded (env : Browser) (ops : list Op) (st : Store) :
  length (history (run env ops st)) ≤ max 50 (length (history st))
  ∧ (length (history st) ≤ 50 → length (history (run env ops st)) ≤ 50).
Proof.
  assert (H : length (history (run env ops st))
              ≤ max 50 (length (history st))).
  { induction ops as [|op ops IH] using rev_ind; [simpl; lia|].
    rewrite run_snoc.
    pose proof (apply_length env (run env ops st) op). lia. }
  split; [done|lia].
Qed.

Lemma history_stays_bounded_witness :
  length (history Samples.full_store) ≤ 50
  ∧ length (history (run Samples.a_browser
              [Add Samples.new_entry "k3x9f" "2025-01-16T09:30:00.000Z";
               Add Samples.new_entry "p0q1r" "2025-01-16T09:31:00.000Z"]
              Samples.full_store))
    ≤ 50.
Proof.
  assert (H : length (history Samples.full_store) ≤ 50) by (vm_compute; lia).
  split; [done|].
  exact (proj2 (history_stays_bounded Samples.a_browser
           [Add Samples.new_entry "k3x9f" "2025-01-16T09:30:00.000Z";
            Add Samples.new_entry "p0q1r" "2025-01-16T09:31:00.000Z"]
           Samples.full_store) H).
Defined.

End HistoryFacts.

(** ** Favourite prompts *)

Module FavoritesFacts.
Import Favorites.

Lemma saveFavorites_favorites env st :
  favorites (saveFavorites env st) = favorites st.
Proof.
  unfold saveFavorites.
  by destruct (UseLocalStorage.has_window env),
              (UseLocalStorage.setItem_succeeds env).
Qed.

Lemma indexOf_None prompt l : indexOf prompt l = None ↔ prompt ∉ l.
Proof.
  induction l as [|x l IH]; simpl.
  - split; [intros _; apply not_elem_of_nil|done].
  - rewrite not_elem_of_cons.
    destruct (String.eqb_spec x prompt) as [->|Hne].
    + split; [done|]. intros [Hp _]. done.
    + rewrite fmap_None, IH. split; [intros H; split; [congruence|done]|].
      by intros [_ H].
Qed.

Lemma delete_pushed {A} (l : list A) (x : A) :
  delete (length l) (l ++ [x]) = l.
Proof. induction l as [|y l IH]; simpl; [done|]. by rewrite IH. Qed.

(** [indexOf] finds the first occurrence. *)
Lemma indexOf_Some prompt l i :
  indexOf prompt l = Some i →
  l !! i = Some prompt ∧ prompt ∉ take i l.
Proof.
  revert i. induction l as [|x l IH]; intros i; simpl; [done|].
  destruct (String.eqb_spec x prompt) as [->|Hne].
  - intros [= <-]. split; [done|]. apply not_elem_of_nil.
  - destruct (indexOf prompt l) as [j|]; simpl; [|done].
    intros [= <-]. destruct (IH j eq_refl) as [Hl Ht].
    split; [done|]. simpl. rewrite not_elem_of_cons. auto.
Qed.

(** In a list without repetition, deleting at the index found leaves
    the other prompts, in their order. *)
Lemma delete_indexOf prompt l i :
  NoDup l → indexOf prompt l = Some i →
  delete i l = filter (λ q, q ≠ prompt) l.
Proof.
  intros Hnd. revert i.
  induction Hnd as [|x l Hx Hnd IH]; intros i; simpl; [done|].
  destruct (String.eqb_spec x prompt) as [->|Hne].
  - intros [= <-]. simpl. rewrite filter_cons_False by tauto.
    symmetry. apply HistoryFacts.filter_all.
    apply Forall_forall. intros q Hq ->. done.
  - destruct (indexOf prompt l) as [j|]; simpl; [|done].
    intros [= <-]. simpl. rewrite filter_cons_True by done.
    by rewrite (IH j).
Qed.

Lemma toggled_list env prompt st :
  favorites (toggleFavorite env prompt st)
  = match indexOf prompt (favorites st) with
    | Some index => delete index (favorites st)
    | None => favorites st ++ [prompt]
    end.
Proof. unfold toggleFavorite. by rewrite saveFavorites_favorites. Qed.

(** X6: on favourites without repetition, [toggleFavorite] flips whether
    the prompt is a favourite, leaves every other prompt as it was, and
    keeps the list free of repetition. *)
Theorem toggleFavorite_flips
  (env : UseLocalStorage.Browser) (prompt : string) (st : Store) :
  NoDup (favorites st) →
  isFavorite prompt (toggleFavorite env prompt st)
  = negb (isFavorite prompt st)
  ∧ (∀ other, other ≠ prompt →
       isFavorite other (toggleFavorite env prompt st)
       = isFavorite other st)
  ∧ NoDup (favorites (toggleFavorite env prompt st)).
Proof.
  intros Hnd. unfold isFavorite. rewrite toggled_list.
  destruct (indexOf prompt (favorites st)) as [i|] eqn:Hi.
  - rewrite (delete_indexOf _ _ _ Hnd Hi).
    apply indexOf_Some in Hi as [Hi _].
    apply list_elem_of_lookup_2 in Hi.
    split; [|split].
    + rewrite (bool_decide_eq_true_2 _ Hi). simpl.
      apply bool_decide_eq_false_2. rewrite list_elem_of_filter. tauto.
    + intros other Hne. apply bool_decide_ext.
      rewrite list_elem_of_filter. tauto.
    + by apply NoDup_filter.
  - apply indexOf_None in Hi.
    split; [|split].
    + rewrite (bool_decide_eq_false_2 _ Hi). simpl.
      apply bool_decide_eq_true_2. apply elem_of_app. right.
      apply list_elem_of_here.
    + intros other Hne. apply bool_decide_ext.
      rewrite elem_of_app, list_elem_of_singleton. tauto.
    + apply NoDup_app. split; [done|]. split; [|apply NoDup_singleton].
      intros x Hx. rewrite list_elem_of_singleton. by intros ->.
Qed.

Lemma toggleFavorite_flips_witness :
  NoDup ["Explain transformers in simple terms"; "Write a haiku"]
  ∧ isFavorite "Write a haiku"
      (toggleFavorite Samples.a_browser "Write a haiku"
         {| favorites := ["Explain transformers in simple terms";
                          "Write a haiku"];
            stored := None |})
    = false.
Proof.
  assert (H : NoDup ["Explain transformers in simple terms";
                     "Write a haiku"])
    by (apply (bool_decide_unpack _); by vm_compute).
  split; [done|].
  rewrite (proj1 (toggleFavorite_flips Samples.a_browser "Write a haiku"
             {| favorites := ["Explain transformers in simple terms";
                              "Write a haiku"];
                stored := None |} H)).
  by vm_compute.
Defined.

(** X7: toggling a prompt twice gives back the favourites as they were
    when the prompt was not among them; when it was, on favourites
    without repetition, the prompt ends up last and the others keep
    their order. *)
Theorem toggleFavorite_twice
  (env : UseLocalStorage.Browser) (prompt : string) (st : Store) :
  (prompt ∉ favorites st →
   favorites (toggleFavorite env prompt (toggleFavorite env prompt st))
   = favorites st)
  ∧ (NoDup (favorites st) → prompt ∈ favorites st →
     favorites (toggleFavorite env prompt (toggleFavorite env prompt st))
     = filter (λ q, q ≠ prompt) (favorites st) ++ [prompt]).
Proof.
  split.
  - intros Hnot. rewrite !toggled_list.
    rewrite (proj2 (indexOf_None _ _) Hnot).
    destruct (indexOf prompt (favorites st ++ [prompt])) as [i|] eqn:Hi.
    + apply indexOf_Some in Hi as [Hl Ht].
      destruct (decide (i < length (favorites st))) as [Hlt|Hge].
      * rewrite lookup_app_l in Hl by done.
        apply list_elem_of_lookup_2 in Hl. done.
      * destruct (decide (i = length (favorites st))) as [->|Hne].
        -- apply delete_pushed.
        -- apply lookup_lt_Some in Hl. rewrite length_app in Hl.
           simpl in Hl. lia.
    + apply indexOf_None in Hi. exfalso. apply Hi.
      apply elem_of_app. right. apply list_elem_of_here.
  - intros Hnd Hin. rewrite !toggled_list.
    destruct (indexOf prompt (favorites st)) as [i|] eqn:Hi.
    + rewrite (delete_indexOf _ _ _ Hnd Hi).
      assert (Hgone : prompt ∉ filter (λ q, q ≠ prompt) (favorites st)).
      { rewrite list_elem_of_filter. tauto. }
      by rewrite (proj2 (indexOf_None _ _) Hgone).
    + apply indexOf_None in Hi. done.
Qed.

Lemma toggleFavorite_twice_witness :
  ("Write a haiku" ∉ ["Explain transformers in simple terms"])
  ∧ favorites
      (toggleFavorite Samples.a_browser "Write a haiku"
         (toggleFavorite Samples.a_browser "Write a haiku"
            {| favorites := ["Explain transformers in simple terms"];
               stored := None |}))
    = ["Explain transformers in simple terms"].
Proof.
  assert (H : "Write a haiku" ∉ ["Explain transformers in simple terms"])
    by (apply (bool_decide_unpack _); by vm_compute).
  split; [done|].
  exact (proj1 (toggleFavorite_twice Samples.a_browser "Write a haiku"
           {| favorites := ["Explain transformers in simple terms"];
              stored := None |}) H).
Defined.

End FavoritesFacts.

(** ** Toasts *)

Module UseToastFacts.
Import UseToast.

Lemma drop_timer_pushed target d (l : list (string * float)) :
  Forall (λ x, x.1 ≠ target) l →
  drop_timer target (l ++ [(target, d)]) = l.
Proof.
  induction 1 as [|[i d'] l Hi _ IH]; simpl.
  - by rewrite String.eqb_refl.
  - destruct (String.eqb_spec i target) as [->|_]; [done|].
    by rewrite IH.
Qed.

Lemma delay_of_truthy d : JsNumber.truthy (delay_of d) = true.
Proof.
  unfold delay_of. destruct d as [x|]; [|by vm_compute].
  destruct (JsNumber.truthy x) eqn:Hx; [done|by vm_compute].
Qed.

(** X8: a toast added under an id that no toast and no pending timer
    carries is gone once its timer runs out, and the toasts and timers
    are then exactly what they were before it was added. *)
Theorem toast_expires (fresh_id : string) (toast : NewToast) (st : State) :
  Forall (λ t, id t ≠ fresh_id) (toasts st) →
  Forall (λ x, x.1 ≠ fresh_id) (timers st) →
  expire fresh_id (addToast fresh_id toast st).1 = st.
Proof.
  intros Htoasts Htimers. destruct st as [ts tm]. simpl in *.
  unfold expire, removeToast. simpl. f_equal.
  - rewrite filter_app, filter_cons_False, filter_nil, app_nil_r.
    + apply HistoryFacts.filter_all.
      apply (Forall_impl _ _ _ Htoasts). intros t Ht. simpl.
      destruct (String.eqb_spec (id t) fresh_id) as [Heq|_];
        [by destruct Ht|exact I].
    + simpl. rewrite String.eqb_refl. simpl. tauto.
  - by apply drop_timer_pushed.
Qed.

Lemma toast_expires_witness :
  Forall (λ t, id t ≠ "q7w2e")
    [ {| id := "a1b2c"; type := EvaluatePage.info;
         message := "Template loaded!"; duration := None |} ]
  ∧ toasts
      (expire "q7w2e"
         (success "q7w2e" "Evaluation completed successfully!" None
            {| toasts := [ {| id := "a1b2c"; type := EvaluatePage.info;
                              message := "Template loaded!";
                              duration := None |} ];
               timers := [("a1b2c", 5000%float)] |}).1)
    = [ {| id := "a1b2c"; type := EvaluatePage.info;
           message := "Template loaded!"; duration := None |} ].
Proof.
  assert (H1 : Forall (λ t, id t ≠ "q7w2e")
                 [ {| id := "a1b2c"; type := EvaluatePage.info;
                      message := "Template loaded!"; duration := None |} ])
    by (repeat constructor; discriminate).
  assert (H2 : Forall (λ x : string * float, x.1 ≠ "q7w2e")
                 [("a1b2c", 5000%float)])
    by (repeat constructor; discriminate).
  split; [done|].
  unfold success.
  by rewrite (toast_expires "q7w2e"
                {| new_type := EvaluatePage.success;
                   new_message := "Evaluation completed successfully!";
                   new_duration := None |}
                {| toasts := [ {| id := "a1b2c"; type := EvaluatePage.info;
                                  message := "Template loaded!";
                                  duration := None |} ];
                   timers := [("a1b2c", 5000%float)] |} H1 H2).
Defined.

(** X9: [addToast] appends the toast after the ones displayed and
    schedules one timer for it, whose delay is never 0 nor NaN: it is
    the given duration when that is truthy, and 5000 when the duration
    is absent or 0. *)
Theorem toast_delay (fresh_id : string) (toast : NewToast) (st : State) :
  ∃ d,
    timers (addToast fresh_id toast st).1 = timers st ++ [(fresh_id, d)]
    ∧ JsNumber.truthy d = true
    ∧ (∀ x, new_duration toast = Some x → JsNumber.truthy x = true → d = x)
    ∧ (new_duration toast = None ∨ new_duration toast = Some 0%float →
       d = 5000%float)
    ∧ take (length (toasts st)) (toasts (addToast fresh_id toast st).1)
      = toasts st
    ∧ id <$> toasts (addToast fresh_id toast st).1
      = (id <$> toasts st) ++ [fresh_id].
Proof.
  exists (delay_of (new_duration toast)).
  split; [done|]. split; [apply delay_of_truthy|].
  split; [|split; [|split]].
  - intros x Hx Ht. unfold delay_of. by rewrite Hx, Ht.
  - intros [H|H]; unfold delay_of; by rewrite H.
  - simpl. by rewrite take_app_length.
  - simpl. by rewrite fmap_app.
Qed.

Lemma toast_delay_witness :
  new_duration {| new_type := EvaluatePage.warning;
                  new_message := "History cleared";
                  new_duration := Some 0%float |} = Some 0%float
  ∧ (addToast "q7w2e"
       {| new_type := EvaluatePage.warning;
          new_message := "History cleared";
          new_duration := Some 0%float |}
       {| toasts := []; timers := [] |}).1.(timers)
    = [("q7w2e", 5000%float)].
Proof.
  split; [done|].
  destruct (toast_delay "q7w2e"
              {| new_type := EvaluatePage.warning;
                 new_message := "History cleared";
                 new_duration := Some 0%float |}
              {| toasts := []; timers := [] |})
    as (d & -> & _ & _ & Hd & _).
  by rewrite (Hd (or_intror eq_refl)).
Defined.

End UseToastFacts.

(** ** The comparison bar and what the comparison page shows *)

Module CompareViewFacts.
Import Api ComparePage CompareView.

(** X10: a comparison bar never marks both sides as better; it marks
    none when [higherBetter] is not given or when the two values are
    equal; and exchanging the two values exchanges the marks. *)
Theorem never_both_better (props : ComparisonBar.Props) :
  ComparisonBar.isABetter props && ComparisonBar.isBBetter props = false
  ∧ (ComparisonBar.higherBetter props = None →
     ComparisonBar.isABetter props = false
     ∧ ComparisonBar.isBBetter props = false)
  ∧ ((ComparisonBar.valueA props =? ComparisonBar.valueB props)%float = true →
     ComparisonBar.isABetter props = false
     ∧ ComparisonBar.isBBetter props = false)
  ∧ ComparisonBar.isABetter
      {| ComparisonBar.label := ComparisonBar.label props;
         ComparisonBar.valueA := ComparisonBar.valueB props;
         ComparisonBar.valueB := ComparisonBar.valueA props;
         ComparisonBar.max := ComparisonBar.max props;
         ComparisonBar.unit := ComparisonBar.unit props;
         ComparisonBar.higherBetter := ComparisonBar.higherBetter props |}
    = ComparisonBar.isBBetter props.
Proof.
  unfold ComparisonBar.isABetter, ComparisonBar.isBBetter.
  destruct props as [l a b m u hb]. simpl.
  split; [|split; [|split]].
  - destruct hb as [[|]|]; [| |done].
    + destruct (JsNumber.gt a b) eqn:H; [|done].
      by rewrite (JsNumberFacts.gt_asym _ _ H).
    + change (JsNumber.lt a b) with (JsNumber.gt b a).
      change (JsNumber.lt b a) with (JsNumber.gt a b).
      destruct (JsNumber.gt b a) eqn:H; [|done].
      by rewrite (JsNumberFacts.gt_asym _ _ H).
  - by intros ->.
  - intros H. destruct (JsNumberFacts.eqb_not_gt _ _ H) as [Hab Hba].
    change (JsNumber.lt a b) with (JsNumber.gt b a).
    change (JsNumber.lt b a) with (JsNumber.gt a b).
    rewrite Hab, Hba. by destruct hb as [[|]|].
  - by destruct hb as [[|]|].
Qed.

Lemma never_both_better_witness :
  (7.5 =? 7.5)%float = true
  ∧ ComparisonBar.isABetter
      {| ComparisonBar.label := "Quality Score";
         ComparisonBar.valueA := 7.5; ComparisonBar.valueB := 7.5;
         ComparisonBar.max := 10; ComparisonBar.unit := "";
         ComparisonBar.higherBetter := Some true |}
    = false.
Proof.
  split; [by vm_compute|].
  apply (proj1 (proj2 (proj2 (never_both_better
           {| ComparisonBar.label := "Quality Score";
              ComparisonBar.valueA := 7.5; ComparisonBar.valueB := 7.5;
              ComparisonBar.max := 10; ComparisonBar.unit := "";
              ComparisonBar.higherBetter := Some true |})))).
  by vm_compute.
Defined.

Lemma guard_passes st :
  compareDisabled st = false →
  blank (prompt st) = false ∧ loading st = false
  ∧ String.eqb (modelA st) (modelB st) = false.
Proof.
  unfold compareDisabled.
  destruct (blank (prompt st)), (loading st),
    (String.eqb (modelA st) (modelB st)); simpl; intros H; auto.
Qed.

(** Neither half of the handler touches the selection. *)
Lemma complete_selection outcome live :
  modelA (complete outcome live).1 = modelA live
  ∧ modelB (complete outcome live).1 = modelB live.
Proof. by destruct outcome. Qed.

(** A request is sent for two different models only. *)
Lemma dispatch_models st pending :
  dispatch st = Some pending →
  modelA pending = modelA st ∧ modelB pending = modelB st
  ∧ String.eqb (modelA st) (modelB st) = false.
Proof.
  unfold dispatch.
  destruct (blank (prompt st)); [done|].
  destruct (String.eqb (modelA st) (modelB st)); [done|].
  by intros [= <-].
Qed.

(** X11: [runComparison] issues no call when the prompt is blank or the
    two models are the same, and exactly one call otherwise, whether or
    not a comparison is already loading.  When the button is enabled the
    call is made and the page is no longer loading afterwards; when the
    button is disabled and nothing is loading, nothing happens. *)
Theorem runComparison_calls
  (compare : EvalPrompt → string → string → float → float →
             settled CompareResult)
  (st : State) :
  length (calls (runComparison compare st).2)
  = (if blank (prompt st) || String.eqb (modelA st) (modelB st)
     then 0 else 1)
  ∧ (compareDisabled st = false →
     length (calls (runComparison compare st).2) = 1
     ∧ loading (runComparison compare st).1 = false)
  ∧ (compareDisabled st = true → loading st = false →
     runComparison compare st = (st, [])).
Proof.
  split; [|split].
  - unfold runComparison, dispatch.
    destruct (blank (prompt st) || String.eqb (modelA st) (modelB st));
      [done|].
    by destruct (compare _ _ _ _ _).
  - intros Hen. apply guard_passes in Hen as (Hp & _ & Hm).
    unfold runComparison, dispatch. rewrite Hp, Hm. simpl.
    by destruct (compare _ _ _ _ _).
  - unfold compareDisabled, runComparison, dispatch. intros Hd Hl.
    rewrite Hl, orb_false_r in Hd.
    destruct (blank (prompt st)); [done|]. simpl in *. by rewrite Hd.
Qed.

Lemma runComparison_calls_witness :
  compareDisabled Samples.two_model_form = false
  ∧ length (calls (runComparison (Samples.compare_backend 7.5 8.2)
                     Samples.two_model_form).2)
    = 1.
Proof.
  split; [by vm_compute|].
  apply (proj1 (proj2 (runComparison_calls (Samples.compare_backend 7.5 8.2)
                         Samples.two_model_form))).
  by vm_compute.
Defined.

Lemma both_badges st r :
  winnerBadgeA st r && winnerBadgeB st r = true
  ↔ winner r = Some (modelA st) ∧ modelA st = modelB st.
Proof.
  unfold winnerBadgeA, winnerBadgeB.
  destruct (winner r) as [w|]; [|split; [done|by intros [? _]]].
  destruct (String.eqb_spec w (modelA st)) as [->|Ha]; simpl.
  - destruct (String.eqb_spec (modelA st) (modelB st)) as [Hab|Hab].
    + by split.
    + split; [done|]. by intros [_ ?].
  - split; [done|]. intros [[= ?] _]. done.
Qed.

(** X12: the "Winner" badges and the banner compare the winner with the
    models that are selected when the result is drawn, not with those of
    the request.  When a request settles with a result, the page shows
    that result against the selection of that moment.  Both sides carry
    the badge exactly when both selects hold the winner's id: never while
    the selection is the one the request was sent with, but the operator
    who, while the comparison is loading, sets model A to the model B
    that then wins, gets the badge on both sides.  Without a winner the
    heading is "Tie", no side has the badge and the banner is neutral;
    when side A has the badge and its id is not empty, the heading names
    model A. *)
Theorem badges_after_comparison (live : State) (r : CompareResult) :
  let shown := (complete (Resolved r) live).1 in
  (result shown = Some r ∧ loading shown = false
   ∧ modelA shown = modelA live ∧ modelB shown = modelB live)
  ∧ (winnerBadgeA shown r && winnerBadgeB shown r = true
     ↔ winner r = Some (modelA live) ∧ modelA live = modelB live)
  ∧ (∀ st pending,
       dispatch st = Some pending →
       modelA live = modelA st → modelB live = modelB st →
       winnerBadgeA shown r && winnerBadgeB shown r = false)
  ∧ (∀ st pending,
       dispatch st = Some pending →
       winner r = Some (modelB st) →
       let edited :=
         (complete (Resolved r)
            (select_models (modelB st) (modelB st) pending)).1 in
       winnerBadgeA edited r = true ∧ winnerBadgeB edited r = true)
  ∧ (winner r = None →
     winnerHeading r = "Tie"
     ∧ winnerBadgeA shown r = false ∧ winnerBadgeB shown r = false
     ∧ bannerClass shown r = "border-dark-600")
  ∧ (winnerBadgeA shown r = true → modelA live ≠ "" →
     winnerHeading r = "Winner: " +:+ modelA live).
Proof.
  intros shown. subst shown. cbn [complete fst].
  split; [done|].
  split; [exact (both_badges (with_loading false (with_result (Some r) live)) r)|].
  split; [|split; [|split]].
  - intros st pending Hd Ha Hb.
    apply dispatch_models in Hd as (_ & _ & Hne).
    apply not_true_is_false. intros Hboth.
    apply both_badges in Hboth as [_ Heq]. cbn in Heq.
    rewrite Ha, Hb in Heq. rewrite Heq, String.eqb_refl in Hne. done.
  - intros st pending _ Hw.
    unfold winnerBadgeA, winnerBadgeB. rewrite Hw. cbn.
    by rewrite String.eqb_refl.
  - intros Hw. unfold winnerHeading, bannerClass, winnerBadgeA, winnerBadgeB.
    by rewrite Hw.
  - unfold winnerBadgeA, winnerHeading. cbn.
    destruct (winner r) as [w|]; [|done].
    destruct (String.eqb_spec w (modelA live)) as [->|]; [|done].
    intros _ Hne. by destruct (String.eqb_spec (modelA live) "").
Qed.

Lemma badges_after_comparison_witness :
  dispatch Samples.two_model_form
  = Some (with_result None (with_loading true Samples.two_model_form))
  ∧ winnerBadgeA
      (complete (Resolved MoreSamples.two_model_answer)
         (with_result None (with_loading true Samples.two_model_form))).1
      MoreSamples.two_model_answer
    && winnerBadgeB
         (complete (Resolved MoreSamples.two_model_answer)
            (with_result None (with_loading true Samples.two_model_form))).1
         MoreSamples.two_model_answer
    = false
  ∧ winnerBadgeA
      (complete (Resolved MoreSamples.two_model_answer)
         (select_models "mistral-large-latest" "mistral-large-latest"
            (with_result None (with_loading true Samples.two_model_form)))).1
      MoreSamples.two_model_answer
    = true.
Proof.
  split; [by vm_compute|]. split.
  - exact (proj1 (proj2 (proj2
             (badges_after_comparison
                (with_result None (with_loading true Samples.two_model_form))
                MoreSamples.two_model_answer)))
             Samples.two_model_form _ eq_refl eq_refl eq_refl).
  - exact (proj1 (proj1 (proj2 (proj2 (proj2
             (badges_after_comparison
                (with_result None (with_loading true Samples.two_model_form))
                MoreSamples.two_model_answer))))
             Samples.two_model_form _ eq_refl eq_refl)).
Defined.

End CompareViewFacts.

(** ** More on the evaluation page *)

Module EvaluateActionsFacts.
Import Api EvaluatePage EvaluateActions.

(** X13: [runEvaluation] issues no call for a blank prompt and exactly
    one call otherwise; it does not look at [loading], so that, called
    while an evaluation is in flight and the button is disabled (the
    Ctrl+Enter shortcut calls it directly), it sends the request again.
    After a call the page is no longer loading. *)
Theorem runEvaluation_calls
  (evaluate : EvalRequest → settled EvalResult) (st : State) :
  length (calls (runEvaluation evaluate st).2)
  = (if blank (prompt st) then 0 else 1)
  ∧ (blank (prompt st) = true → runEvaluation evaluate st = (st, []))
  ∧ (blank (prompt st) = false → loading st = true →
     submitDisabled st = true
     ∧ calls (runEvaluation evaluate st).2 = [ApiEvaluate (request_of st)])
  ∧ (blank (prompt st) = false →
     loading (runEvaluation evaluate st).1 = false).
Proof.
  unfold runEvaluation, dispatch, submitDisabled.
  destruct (blank (prompt st)) eqn:Hp.
  - repeat split; done.
  - destruct (evaluate (request_of st)) as [r|e];
      (split; [done|]; split; [done|]; split; [|done]);
      intros _ ->; done.
Qed.

Lemma runEvaluation_calls_witness :
  blank (prompt MoreSamples.typed_form) = false
  ∧ loading (runEvaluation MoreSamples.failing_backend
               MoreSamples.typed_form).1
    = false.
Proof.
  split; [by vm_compute|].
  apply (proj2 (proj2 (proj2
           (runEvaluation_calls MoreSamples.failing_backend
              MoreSamples.typed_form)))).
  by vm_compute.
Defined.

(** X14: the history is written only for an evaluation that succeeded,
    and the entry is read when the request settles.  A run records an
    entry only if its prompt is not blank and the backend answers.  The
    entry holds the prompt, the model and the temperature of the form as
    it stands at that moment, and for score the [overall_score] member of
    the answer as it was received, absent when the answer has none; the
    result is shown and the success toast raised.  A failure records
    nothing, keeps the message as the error and raises the error toast
    "Evaluation failed: <message>". *)
Theorem history_only_on_success
  (evaluate : EvalRequest → settled EvalResult) (st live : State) :
  (history_entries (runEvaluation evaluate st).2 ≠ [] →
   blank (prompt st) = false ∧ ∃ r, evaluate (request_of st) = Resolved r)
  ∧ (∀ r,
       history_entries (complete (Resolved r) live).2
       = [ {| UseLocalStorage.new_prompt := prompt live;
              UseLocalStorage.new_model := selectedModel live;
              UseLocalStorage.new_score := overall_score (quality (metrics r));
              UseLocalStorage.new_temperature :=
                Json.Num (temperature live) |} ]
       ∧ result (complete (Resolved r) live).1 = Some r
       ∧ error (complete (Resolved r) live).1 = error live
       ∧ loading (complete (Resolved r) live).1 = false
       ∧ Toast success "Evaluation completed successfully!"
         ∈ (complete (Resolved r) live).2)
  ∧ (∀ e,
       history_entries (complete (Rejected e) live).2 = []
       ∧ result (complete (Rejected e) live).1 = result live
       ∧ error (complete (Rejected e) live).1 = Some e
       ∧ loading (complete (Rejected e) live).1 = false
       ∧ Toast error_toast ("Evaluation failed: " +:+ e)
         ∈ (complete (Rejected e) live).2)
  ∧ (∀ pending, dispatch st = Some pending →
       result pending = None ∧ error pending = None
       ∧ loading pending = true).
Proof.
  split; [|split; [|split]].
  - unfold runEvaluation, dispatch.
    destruct (blank (prompt st)); [done|].
    destruct (evaluate (request_of st)) as [r|e]; [eauto|done].
  - intros r. cbn. repeat split; try done.
    apply list_elem_of_further, list_elem_of_here.
  - intros e. cbn. repeat split; try done. apply list_elem_of_here.
  - unfold dispatch. destruct (blank (prompt st)); [done|].
    by intros pending [= <-].
Qed.

Lemma history_only_on_success_witness :
  history_entries
    (runEvaluation Samples.evaluate_backend MoreSamples.typed_form).2 ≠ []
  ∧ ∃ r, Samples.evaluate_backend (request_of MoreSamples.typed_form)
         = Resolved r.
Proof.
  assert (H : history_entries
                (runEvaluation Samples.evaluate_backend
                   MoreSamples.typed_form).2 ≠ []) by (by vm_compute).
  split; [done|].
  exact (proj2 (proj1 (history_only_on_success Samples.evaluate_backend
                         MoreSamples.typed_form MoreSamples.typed_form) H)).
Defined.



End EvaluateActionsFacts.

(** ** NaN and zero *)

Module JsNumberEdgeFacts.
Import JsNumber.

Lemma SFcompare_refl f : f ≠ S754_nan → SFcompare f f = Some Eq.
Proof.
  destruct f as [s|s| |s m e]; simpl; intros Hf; try done.
  - by destruct s.
  - rewrite Z.compare_refl.
    change (PosDef.Pos.compare_cont Eq m m) with (Pos.compare m m).
    rewrite Pos.compare_refl. by destruct s.
Qed.

(** A number that differs from itself is NaN. *)
Lemma isNaN_Prim2SF x : isNaN x = true → Prim2SF x = S754_nan.
Proof.
  unfold isNaN. rewrite FloatAxioms.eqb_spec. unfold SFeqb.
  destruct (Prim2SF x) as [s|s| |s m e] eqn:Hx; [| |done|].
  all: by rewrite SFcompare_refl.
Qed.

Lemma SFcompare_nan_l f : SFcompare S754_nan f = None.
Proof. by destruct f. Qed.

Lemma SFcompare_nan_r f : SFcompare f S754_nan = None.
Proof. by destruct f. Qed.

(** No comparison holds of NaN. *)
Lemma nan_not_below x y : isNaN x = true → lt x y = false.
Proof.
  intros Hx. unfold lt. rewrite FloatAxioms.ltb_spec.
  rewrite (isNaN_Prim2SF _ Hx). unfold SFltb.
  by rewrite SFcompare_nan_l.
Qed.

Lemma nan_not_at_least x y : isNaN x = true → (y <=? x)%float = false.
Proof.
  intros Hx. rewrite FloatAxioms.leb_spec.
  rewrite (isNaN_Prim2SF _ Hx). unfold SFleb.
  by rewrite SFcompare_nan_r.
Qed.

(** The numbers equal to 0 are the two zeros. *)
Lemma eqb_zero_Prim2SF x :
  (x =? 0)%float = true → ∃ s, Prim2SF x = S754_zero s.
Proof.
  rewrite FloatAxioms.eqb_spec. unfold SFeqb.
  change (Prim2SF 0) with (S754_zero false).
  destruct (Prim2SF x) as [s|s| |s m e]; simpl; try done; [eauto| |].
  - by destruct s.
  - by destruct s.
Qed.

(** Zero divided by zero is NaN. *)
Lemma zero_div_zero x y :
  (x =? 0)%float = true → (y =? 0)%float = true → isNaN (x / y) = true.
Proof.
  intros [sx Hx]%eqb_zero_Prim2SF [sy Hy]%eqb_zero_Prim2SF.
  unfold isNaN. rewrite FloatAxioms.eqb_spec, FloatAxioms.div_spec.
  by rewrite Hx, Hy.
Qed.

End JsNumberEdgeFacts.

(** ** Score colours *)

Module ScoreBandsFacts.
Import ScoreBands.

(** X16: the badge label and dot, the ring glow, the criterion bar and
    the batch bar always put a score in the same band: all five show
    the top band exactly when [score >= 8], the middle band exactly when
    [6 <= score] fails to reach 8, and the bottom band otherwise; a
    score that is NaN is in the bottom band. *)
Theorem score_bands_agree (score : float) :
  (ge score 8 = true →
   label score = "Excellent" ∧ dotClass score = "bg-emerald-400"
   ∧ glowColor score = "bg-emerald-500"
   ∧ getScoreBarColor score
     = "bg-gradient-to-r from-emerald-500 to-emerald-400"
   ∧ getScoreColor score = "bg-green-500")
  ∧ (ge score 8 = false → ge score 6 = true →
     label score = "Good" ∧ dotClass score = "bg-amber-400"
     ∧ glowColor score = "bg-amber-500"
     ∧ getScoreBarColor score
       = "bg-gradient-to-r from-amber-500 to-amber-400"
     ∧ getScoreColor score = "bg-yellow-500")
  ∧ (ge score 8 = false → ge score 6 = false →
     label score = "Needs Work" ∧ dotClass score = "bg-rose-400"
     ∧ glowColor score = "bg-rose-500"
     ∧ getScoreBarColor score
       = "bg-gradient-to-r from-rose-500 to-rose-400"
     ∧ getScoreColor score = "bg-red-500")
  ∧ (JsNumber.isNaN score = true →
     label score = "Needs Work" ∧ getScoreColor score = "bg-red-500").
Proof.
  unfold label, dotClass, glowColor, getScoreBarColor, getScoreColor.
  split; [|split; [|split]].
  - by intros ->.
  - by intros -> ->.
  - by intros -> ->.
  - intros Hnan. unfold ge.
    by rewrite !(JsNumberEdgeFacts.nan_not_at_least _ _ Hnan).
Qed.

Lemma score_bands_agree_witness :
  ge 7.2 8 = false ∧ ge 7.2 6 = true ∧ label 7.2 = "Good".
Proof.
  split; [by vm_compute|]. split; [by vm_compute|].
  apply (proj1 (proj2 (score_bands_agree 7.2))); by vm_compute.
Defined.

End ScoreBandsFacts.

(** ** More on the variance badge *)

Module VarianceEdgeFacts.
Import VarianceChart.

(** X17: whenever the coefficient of variation the badge works with is
    NaN the sample is classified [poor]; this is the case of every
    statistics record sent without a truthy coefficient whose mean and
    standard deviation are both zero, of either sign. *)
Theorem nan_is_poor (stats : Stats) :
  (JsNumber.isNaN (cv stats) = true → varianceQuality stats = poor)
  ∧ (divides stats = true →
     (mean stats =? 0)%float = true → (std_dev stats =? 0)%float = true →
     JsNumber.isNaN (cv stats) = true ∧ varianceQuality stats = poor).
Proof.
  assert (Hpoor : JsNumber.isNaN (cv stats) = true →
                  varianceQuality stats = poor).
  { intros Hnan. unfold varianceQuality.
    by rewrite !(JsNumberEdgeFacts.nan_not_below _ _ Hnan). }
  split; [done|].
  intros Hd Hm Hs.
  assert (Hnan : JsNumber.isNaN (cv stats) = true).
  { rewrite (VarianceChartFacts.cv_fallback _ Hd).
    by apply JsNumberEdgeFacts.zero_div_zero. }
  auto.
Qed.

Lemma nan_is_poor_witness :
  divides (Samples.constant_scores (-0)) = true
  ∧ varianceQuality (Samples.constant_scores (-0)) = poor.
Proof.
  split; [by vm_compute|].
  apply (proj2 (nan_is_poor (Samples.constant_scores (-0))));
    by vm_compute.
Defined.

End VarianceEdgeFacts.

(** ** More on the API client *)

Module UseApiMoreFacts.
Import UseApi.

(** X18: [apiFetch] returns data exactly when the response is ok and its
    body is JSON, and the data is that body; an ok response whose body is
    not JSON throws a SyntaxError.  An [Error] is thrown only for a
    failing response.  Its message is empty only when the body carries a
    truthy [detail] whose string form is empty: a [detail] that is a
    string never gives an empty message, nor does a missing or falsy
    one, but the empty array does. *)
Theorem apiFetch_returns_iff
  (Number_toString : float → string) (r : Response) :
  (∀ data,
     apiFetch Number_toString r = Returns data
     ↔ ok r = true ∧ body r = Some data)
  ∧ (ok r = true → body r = None →
     apiFetch Number_toString r = Throws SyntaxError)
  ∧ (∀ message,
       apiFetch Number_toString r = Throws (Error message) →
       ok r = false
       ∧ (message = "" →
          ∃ data v,
            body r = Some data
            ∧ Json.get data "detail" = Some (Json.Defined v)
            ∧ Json.truthy v = true
            ∧ ToString Number_toString v = Some ""
            ∧ ∀ text, v ≠ Json.Str text))
  ∧ (ok r = false →
     body r = Some (Json.Object [("detail", Json.Array [])]) →
     apiFetch Number_toString r = Throws (Error "")).
Proof.
  unfold apiFetch.
  destruct (ok r); simpl.
  - split; [|split; [|split]].
    + intros data. destruct (body r) as [b|].
      * split; [by intros [= ->]|by intros [_ [= ->]]].
      * split; [done|by intros [_ ?]].
    + by intros _ ->.
    + intros message. by destruct (body r).
    + done.
  - split; [|split; [|split]].
    + intros data. split; [|by intros [? _]].
      destruct (Json.get _ _) as [[|v]|]; try done.
      destruct (Json.truthy v); [|done].
      by destruct (ToString _ v).
    + done.
    + intros message Hthrown. split; [done|]. intros ->.
      destruct (body r) as [data|]; [|done]. simpl in Hthrown.
      destruct (Json.get data "detail") as [[|v]|] eqn:Hget; try done.
      destruct (Json.truthy v) eqn:Hv; [|done].
      destruct (ToString Number_toString v) as [message|] eqn:Hs; [|done].
      injection Hthrown as ->.
      exists data, v. do 4 (split; [done|]).
      intros text ->. simpl in Hs, Hv. by injection Hs as ->.
    + by intros _ ->.
Qed.

Lemma apiFetch_returns_iff_witness :
  ok {| ok := false; status := 422;
        body := Some (Json.Object [("detail", Json.Array [])]) |} = false
  ∧ ∀ Number_toString : float → string,
      apiFetch Number_toString
        {| ok := false; status := 422;
           body := Some (Json.Object [("detail", Json.Array [])]) |}
      = Throws (Error "").
Proof.
  split; [done|]. intros N.
  exact (proj2 (proj2 (proj2 (apiFetch_returns_iff N
           {| ok := false; status := 422;
              body := Some (Json.Object [("detail", Json.Array [])]) |})))
           eq_refl eq_refl).
Defined.

End UseApiMoreFacts.

(** ** More on the token stream *)

Module StreamMoreFacts.
Import UseApi.

Section WithParser.

Variable JSON_parse : string → option Json.value.

Lemma token_of_truthy line token :
  token_of JSON_parse line = Some token → Json.truthy token = true.
Proof.
  unfold token_of.
  destruct (JsString.startsWith line "data: "); [|done].
  destruct (JSON_parse _) as [parsed|]; simpl; [|done].
  destruct (Json.get parsed "token") as [[|v]|]; simpl; try done.
  destruct (Json.truthy v) eqn:Hv; [|done].
  by intros [= <-].
Qed.

(** Splitting a text that holds a separator: the pieces before it, then
    the pieces after it. *)
Lemma split_char_from_app sep cur a b :
  JsString.split_char_from sep cur (a +:+ String sep b)
  = JsString.split_char_from sep cur a ++ JsString.split_char sep b.
Proof.
  revert cur. induction a as [|c a IH]; intros cur; simpl.
  - by rewrite Ascii.eqb_refl.
  - destruct (Ascii.eqb c sep); simpl; by rewrite IH.
Qed.

Lemma split_char_from_last sep cur a :
  ∃ pieces piece, JsString.split_char_from sep cur a = pieces ++ [piece].
Proof.
  revert cur. induction a as [|c a IH]; intros cur; simpl.
  - by exists [], cur.
  - destruct (Ascii.eqb c sep).
    + destruct (IH EmptyString) as (ps & p & ->). by exists (cur :: ps), p.
    + apply IH.
Qed.

Lemma omap_length_le {A B} (f : A → option B) (l : list A) :
  length (omap f l) ≤ length l.
Proof.
  induction l as [|x l IH]; [done|].
  csimpl. destruct (f x); simpl; lia.
Qed.

(** A line that is no data line neither yields nor stops. *)
Lemma empty_line_is_passed :
  is_marker EmptyString = false ∧ token_of JSON_parse EmptyString = None.
Proof. done. Qed.

Lemma tokens_skip_empty_line l1 l2 :
  omap (token_of JSON_parse) (before_marker (l1 ++ EmptyString :: l2))
  = omap (token_of JSON_parse) (before_marker (l1 ++ l2)).
Proof.
  rewrite !StreamFacts.before_marker_app.
  destruct (existsb is_marker l1); [done|].
  rewrite !omap_app. done.
Qed.

End WithParser.

(** X19: every value [streamEvaluate] yields is truthy (no empty string,
    no 0, no null, no false), and it yields at most one value per line
    received. *)
Theorem stream_tokens_truthy
  (JSON_parse : string → option Json.value)
  (response_body : option (list string)) :
  Forall (λ token, Json.truthy token = true)
    (streamEvaluate JSON_parse response_body)
  ∧ length (streamEvaluate JSON_parse response_body)
    ≤ length (arriving_lines (default [] response_body)).
Proof.
  destruct response_body as [reads|]; [|split; [constructor|simpl; lia]].
  change (default [] (Some reads)) with reads. cbn [streamEvaluate].
  rewrite StreamFacts.read_loop_tokens. unfold tokens_until_marker. split.
  - apply Forall_forall. intros token Hin.
    apply list_elem_of_omap in Hin as (line & _ & Hline).
    by apply (token_of_truthy JSON_parse line).
  - etrans; [apply omap_length_le|].
    destruct (StreamFacts.before_marker_prefix (arriving_lines reads))
      as (rest & Heq & _).
    apply (f_equal length) in Heq. rewrite length_app in Heq. lia.
Qed.

(** X20: how the lines are cut into reads does not matter as long as a
    read ends where a line ends: two consecutive reads, the first of
    which ends with a line feed, yield the same tokens as the single
    read that holds both texts. *)
Theorem stream_rechunked_at_line_end
  (JSON_parse : string → option Json.value)
  (earlier : list string) (first second : string) (later : list string) :
  streamEvaluate JSON_parse
    (Some (earlier ++ [first +:+ String JsString.newline EmptyString; second]
           ++ later))
  = streamEvaluate JSON_parse
      (Some (earlier
             ++ [first +:+ String JsString.newline second] ++ later)).
Proof.
  cbn [streamEvaluate]. rewrite !StreamFacts.read_loop_tokens.
  unfold tokens_until_marker, arriving_lines.
  rewrite !map_app, !concat_app. cbn [map concat app].
  unfold JsString.split_char. rewrite !split_char_from_app.
  cbn [JsString.split_char JsString.split_char_from].
  rewrite <- !app_assoc. cbn [app].
  rewrite !(app_assoc (concat _)).
  apply tokens_skip_empty_line.
Qed.

End StreamMoreFacts.

(** ** The token stream and the reads it arrives in *)

Module StreamCutFacts.
Import UseApi.

Lemma append_empty_r (a : string) : a +:+ EmptyString = a.
Proof.
  induction a as [|c a IH]; [done|].
  change (String c (a +:+ EmptyString) = String c a). by rewrite IH.
Qed.

Lemma append_assoc (a b c : string) : (a +:+ b) +:+ c = a +:+ (b +:+ c).
Proof.
  induction a as [|x a IH]; [done|].
  change (String x ((a +:+ b) +:+ c) = String x (a +:+ (b +:+ c))).
  by rewrite IH.
Qed.

Section WithParser.

Variable JSON_parse : string → option Json.value.

(** What follows a run of lines matters through its tokens only. *)
Lemma tokens_after_lines lines rest1 rest2 :
  omap (token_of JSON_parse) (before_marker rest1)
  = omap (token_of JSON_parse) (before_marker rest2) →
  omap (token_of JSON_parse) (before_marker (lines ++ rest1))
  = omap (token_of JSON_parse) (before_marker (lines ++ rest2)).
Proof.
  intros Hrest. rewrite !StreamFacts.before_marker_app.
  destruct (existsb is_marker lines); [done|].
  by rewrite !omap_app, Hrest.
Qed.

(** Reads that end where a line ends: the pieces the loop meets give the
    tokens of the lines of the whole body. *)
Lemma whole_lines_agree (texts : list string) (last : string) :
  tokens_until_marker JSON_parse
    (map (λ text, text +:+ Samples.line_feed) texts ++ [last])
  = tokens_of_stream JSON_parse
      (map (λ text, text +:+ Samples.line_feed) texts ++ [last]).
Proof.
  unfold tokens_until_marker, tokens_of_stream, arriving_lines, stream_lines.
  induction texts as [|text texts IH];
    cbn [map app concat foldr stream_text].
  - by rewrite app_nil_r, append_empty_r.
  - rewrite append_assoc. unfold Samples.line_feed at 1 3.
    change (String JsString.newline EmptyString +:+ ?rest)
      with (String JsString.newline rest).
    unfold JsString.split_char at 1 3.
    rewrite !StreamMoreFacts.split_char_from_app.
    cbn [JsString.split_char JsString.split_char_from].
    rewrite <- app_assoc. cbn [app].
    rewrite StreamMoreFacts.tokens_skip_empty_line.
    by apply tokens_after_lines.
Qed.

End WithParser.

(** C7 does not hold of the generator, which cuts every read into lines
    on its own and carries nothing over from one read to the next.  As
    long as every read but the last ends where a line ends, it yields
    exactly the tokens of the well-formed data lines of the body that
    come before the end-of-stream marker.  But when a read ends inside a
    line, neither piece of that line is a data line: a token line that
    is cut is dropped (the body of one token "Hello" and the marker
    yields nothing), and a marker line that is cut is missed, so that a
    token after the marker is yielded. *)
Theorem streamEvaluate_cut_line :
  (∀ (JSON_parse : string → option Json.value)
     (texts : list string) (last : string),
     streamEvaluate JSON_parse
       (Some (map (λ text, text +:+ Samples.line_feed) texts ++ [last]))
     = tokens_of_stream JSON_parse
         (map (λ text, text +:+ Samples.line_feed) texts ++ [last]))
  ∧ stream_text Samples.cut_token_reads
    = Samples.event (Samples.token_json "Hello") +:+ Samples.event "[DONE]"
  ∧ tokens_of_stream Samples.parse_sample Samples.cut_token_reads
    = [Json.Str "Hello"]
  ∧ streamEvaluate Samples.parse_sample (Some Samples.cut_token_reads) = []
  ∧ stream_text Samples.cut_marker_reads
    = Samples.event "[DONE]" +:+ Samples.event (Samples.token_json "late")
  ∧ tokens_of_stream Samples.parse_sample Samples.cut_marker_reads = []
  ∧ streamEvaluate Samples.parse_sample (Some Samples.cut_marker_reads)
    = [Json.Str "late"].
Proof.
  split; [|by vm_compute].
  intros JSON_parse texts last. cbn [streamEvaluate].
  rewrite StreamFacts.read_loop_tokens. apply whole_lines_agree.
Qed.

End StreamCutFacts.

(** ** The batch page *)

Module BatchPageFacts.
Import BatchPage.

Section WithResult.

Context {R : Type}.
Implicit Types st : State R.

(** What the interval keeps while it runs. *)
Lemma ticks_invariant n st :
  interval st = true → currentProgress st = 0%Z →
  interval (ticks n st) = true
  ∧ loading (ticks n st) = loading st
  ∧ result (ticks n st) = result st
  ∧ totalPrompts (ticks n st) = totalPrompts st
  ∧ currentProgress (ticks n st)
    = Z.min (Z.of_nat n) (Z.max 0 (totalPrompts st - 1)).
Proof.
  intros Hi H0. induction n as [|n (IHi & IHl & IHr & IHt & IHc)].
  - simpl. rewrite H0. repeat split; try done. lia.
  - unfold ticks in *. rewrite Nat.iter_succ.
    set (cur := Nat.iter n tick st) in *.
    unfold tick. rewrite IHi. simpl.
    destruct (Z.ltb_spec (currentProgress cur) (totalPrompts cur - 1));
      simpl; rewrite ?IHi, ?IHl, ?IHr, ?IHt; repeat split; try done; lia.
Qed.

Lemma tick_after_settle outcome st : tick (settle outcome st) = settle outcome st.
Proof. by destruct outcome. Qed.

End WithResult.



End BatchPageFacts.

(** ** More on the cost estimate *)

Module CostCalculatorMoreFacts.
Import CostCalculator.

(** Zero times any number is a zero or NaN, never above a positive
    threshold. *)
Lemma zero_times_not_above r :
  JsNumber.gt (0 * r)%float 0.01%float = false.
Proof.
  unfold JsNumber.gt.
  rewrite FloatAxioms.ltb_spec, FloatAxioms.mul_spec.
  change (Prim2SF 0) with (S754_zero false).
  destruct (Prim2SF r) as [s|s| |s m e]; by vm_compute.
Qed.

(** X22: for a model the price lookup does not find, the high-cost
    warning is never shown, whatever the prompt, the token limit and the
    number of runs, and the total for all runs is never a positive
    amount. *)
Theorem unknown_model_never_warns (props : Props) :
  modelPricing_get (model props) = Missing →
  componentTotalCost props = 0%float
  ∧ highCostWarning props = false
  ∧ JsNumber.gt (componentTotalCost props * runs_or_default props)%float
      0%float = false.
Proof.
  intros Hm.
  assert (H0 : componentTotalCost props = 0%float).
  { unfold componentTotalCost.
    by destruct (CostCalculatorFacts.missing_model_costs_zero
                   (model props) (estimatedInputTokens (prompt props))
                   (maxTokens props) Hm) as (_ & _ & -> & _). }
  split; [done|]. unfold highCostWarning. rewrite H0.
  split; [apply zero_times_not_above|].
  unfold JsNumber.gt.
  rewrite FloatAxioms.ltb_spec, FloatAxioms.mul_spec.
  change (Prim2SF 0) with (S754_zero false).
  destruct (Prim2SF (runs_or_default props)) as [s|s| |s m e];
    by vm_compute.
Qed.

Lemma unknown_model_never_warns_witness :
  modelPricing_get "codestral-latest" = Missing
  ∧ highCostWarning
      {| prompt := "Explain transformers in simple terms";
         model := "codestral-latest"; maxTokens := 4096;
         runs := Some 10%float |}
    = false.
Proof.
  split; [by vm_compute|].
  apply (proj1 (proj2 (unknown_model_never_warns
           {| prompt := "Explain transformers in simple terms";
              model := "codestral-latest"; maxTokens := 4096;
              runs := Some 10%float |} ltac:(by vm_compute)))).
Defined.

End CostCalculatorMoreFacts.
